(** * nigiben: the wide-sheet extraction and carry-forward engine of [app.js]

    A shallow embedding of [cleanNumber] and [processData] (src/app.js) and
    the properties of the inventory reconciliation they implement.

    Modelling choices.
    - A JavaScript number is an IEEE 754 binary64 value: [spec_float] of the
      Standard Library with precision 53 and maximal exponent 1024.  NaN,
      the two zeros and the two infinities are all present, so that the
      truthiness tests of the source ([!x], [x || 0]) keep their meaning.
    - A JavaScript string is its list of UTF-16 code units.
    - The object [previousDayRemain], used by the source as a map from
      product code to number, is a plain object: its own properties are a
      [gmap], and a code that names a property of [Object.prototype]
      ("constructor", "__proto__", ...) reads the inherited function or
      object as long as it has no own property.
    - The sheet is what the CSV parser hands over: a list of rows, each a
      list of strings; reading past the end of a row gives [undefined],
      here [None]. *)

From Stdlib Require Import ZArith NArith Bool Lia.
From Stdlib Require Import Ascii String.
From Stdlib Require Import SpecFloat.
From stdpp Require Import base option list gmap.

Local Open Scope Z_scope.

(* ********************************************************************* *)
(** * Part I: the program and the vocabulary of its properties *)
(* ********************************************************************* *)

(* ===================================================================== *)
(** ** JavaScript numbers *)
(* ===================================================================== *)

Module Num.

Definition prec : Z := 53.
Definition emax : Z := 1024.

Abbreviation num := spec_float.

Definition zero : num := S754_zero false.
Definition NaN : num := S754_nan.
Definition Infinity : num := S754_infinity false.

(** [x + y] and [x - y]. *)
Definition add (x y : num) : num := SFadd prec emax x y.
Definition sub (x y : num) : num := SFsub prec emax x y.

(** [Math.abs]. *)
Definition abs (x : num) : num := SFabs x.

(** [isNaN] on a number. *)
Definition isNaN (x : num) : bool :=
  match x with S754_nan => true | _ => false end.

(** [x === y], [x !== y], [x > y] and [x >= y] on numbers. *)
Definition strictEq (x y : num) : bool := SFeqb x y.
Definition strictNe (x y : num) : bool := negb (SFeqb x y).
Definition gt (x y : num) : bool := SFltb y x.
Definition ge (x y : num) : bool := SFleb y x.

(** ToBoolean on a number: both zeros and NaN are falsy. *)
Definition truthy (x : num) : bool :=
  match x with
  | S754_zero _ | S754_nan => false
  | _ => true
  end.

(** [Math.max] of two numbers: NaN is contagious and [+0] is larger than
    [-0]. *)
Definition max (x y : num) : num :=
  match x, y with
  | S754_nan, _ | _, S754_nan => S754_nan
  | S754_zero sx, S754_zero sy => S754_zero (sx && sy)
  | _, _ => if SFltb x y then y else x
  end.

(** The number nearest to an integer. *)
Definition ofZ (z : Z) : num := binary_normalize prec emax z 0 false.

(** The number nearest to [(-1)^neg * m * 10^e] (round to nearest, ties to
    even).  For a negative [e] the quotient is computed with more than 64
    bits and a sticky bit for the remainder, which makes the final
    rounding the correct one. *)
Definition ofDecimal (neg : bool) (m : Z) (e : Z) : num :=
  let sg (v : Z) := if neg then Z.opp v else v in
  if m =? 0 then S754_zero neg
  else if 0 <=? e then binary_normalize prec emax (sg (m * 10 ^ e)) 0 neg
  else
    let q := 10 ^ (- e) in
    let t := Z.log2 q + 64 in
    let '(d, r) := Z.div_eucl (m * 2 ^ t) q in
    let sticky := if r =? 0 then 0 else 1 in
    binary_normalize prec emax (sg (2 * d + sticky)) (- t - 1) neg.

End Num.

Import Num.

(* ===================================================================== *)
(** ** JavaScript strings *)
(* ===================================================================== *)

(** A string is the list of its UTF-16 code units. *)
Abbreviation jsstring := (list N).

(** String literals of this file are written as Rocq strings, that is as
    UTF-8 bytes; [utf16] decodes them to code units. *)
Fixpoint utf16_of_utf8 (bs : list N) : jsstring :=
  match bs with
  | [] => []
  | b :: r =>
      if (b <? 128)%N then b :: utf16_of_utf8 r
      else if (b <? 224)%N then
        match r with
        | c :: r' => ((b mod 32) * 64 + c mod 64)%N :: utf16_of_utf8 r'
        | [] => []
        end
      else if (b <? 240)%N then
        match r with
        | c1 :: c2 :: r' =>
            ((b mod 16) * 4096 + (c1 mod 64) * 64 + c2 mod 64)%N
              :: utf16_of_utf8 r'
        | _ => []
        end
      else
        match r with
        | c1 :: c2 :: c3 :: r' =>
            let cp := ((b mod 8) * 262144 + (c1 mod 64) * 4096
                       + (c2 mod 64) * 64 + c3 mod 64)%N in
            let v := (cp - 65536)%N in
            (55296 + v / 1024)%N :: (56320 + v mod 1024)%N :: utf16_of_utf8 r'
        | _ => []
        end
  end.

Definition utf16 (s : string) : jsstring :=
  utf16_of_utf8 (List.map N_of_ascii (list_ascii_of_string s)).

(** WhiteSpace and LineTerminator code units, as [String.prototype.trim]
    and [parseFloat] strip them. *)
Definition isWhiteSpace (c : N) : bool :=
  ((c =? 9) || (c =? 10) || (c =? 11) || (c =? 12) || (c =? 13) || (c =? 32)
   || (c =? 160) || (c =? 5760) || ((8192 <=? c) && (c <=? 8202))
   || (c =? 8232) || (c =? 8233) || (c =? 8239) || (c =? 8287)
   || (c =? 12288) || (c =? 65279))%N.

Fixpoint trimStart (s : jsstring) : jsstring :=
  match s with
  | c :: r => if isWhiteSpace c then trimStart r else s
  | [] => []
  end.

Definition trimEnd (s : jsstring) : jsstring := rev (trimStart (rev s)).

(** [s.trim()]. *)
Definition trim (s : jsstring) : jsstring := trimEnd (trimStart s).

(** [s.replace(/,/g, '')]. *)
Definition removeCommas (s : jsstring) : jsstring :=
  List.filter (fun c => negb (c =? 44)%N) s.

(** [s.toLowerCase()].  Only the ASCII letters are mapped.  The keywords
    the source searches for are Thai words, which have no case, and the
    ASCII words total and was, whose letters are the lower case of their
    ASCII capitals only; so no other case mapping of Unicode can create or
    destroy an occurrence of a keyword. *)
Definition toLowerCase (s : jsstring) : jsstring :=
  List.map (fun c => if ((65 <=? c) && (c <=? 90))%N then (c + 32)%N else c) s.

Definition streq (a b : jsstring) : bool := bool_decide (a = b).

Fixpoint startsWith (p s : jsstring) : bool :=
  match p, s with
  | [], _ => true
  | a :: p', b :: s' => (a =? b)%N && startsWith p' s'
  | _ :: _, [] => false
  end.

(** [s.includes(p)]. *)
Fixpoint includes (p s : jsstring) : bool :=
  startsWith p s ||
  match s with
  | [] => false
  | _ :: s' => includes p s'
  end.

(* ===================================================================== *)
(** ** parseFloat *)
(* ===================================================================== *)

Module ParseFloat.

Definition isDigit (c : N) : bool := ((48 <=? c) && (c <=? 57))%N.

(** The longest run of decimal digits at the head of [s], the remainder,
    the accumulated value and the number of digits read. *)
Fixpoint digits (s : jsstring) (acc : Z) (n : Z) : Z * Z * jsstring :=
  match s with
  | c :: r =>
      if isDigit c then digits r (10 * acc + (Z.of_N c - 48)) (n + 1)
      else (acc, n, s)
  | [] => (acc, n, s)
  end.

(** ExponentPart: [e] or [E], an optional sign and at least one digit;
    when that is not what follows, the number ends before it. *)
Definition exponent (s : jsstring) : Z :=
  match s with
  | c :: r =>
      if ((c =? 101) || (c =? 69))%N then
        let '(neg, r') :=
          match r with
          | sgn :: t =>
              if (sgn =? 45)%N then (true, t)
              else if (sgn =? 43)%N then (false, t)
              else (false, r)
          | [] => (false, r)
          end in
        let '(v, n, _) := digits r' 0 0 in
        if n =? 0 then 0 else if neg then - v else v
      else 0
  | [] => 0
  end.

(** StrUnsignedDecimalLiteral, longest prefix. *)
Definition unsigned (neg : bool) (s : jsstring) : num :=
  if startsWith (utf16 "Infinity") s then S754_infinity neg
  else
    let '(ip, ni, r) := digits s 0 0 in
    let '(m, nf, r') :=
      match r with
      | c :: t => if (c =? 46)%N then digits t ip 0 else (ip, 0, r)
      | [] => (ip, 0, r)
      end in
    if (ni =? 0) && (nf =? 0) then NaN
    else ofDecimal neg m (exponent r' - nf).

(** [parseFloat(s)] for a string [s]. *)
Definition parseFloat (s : jsstring) : num :=
  match trimStart s with
  | c :: r =>
      if (c =? 45)%N then unsigned true r
      else if (c =? 43)%N then unsigned false r
      else unsigned false (c :: r)
  | [] => NaN
  end.

End ParseFloat.

Import ParseFloat.

(* ===================================================================== *)
(** ** cleanNumber *)
(* ===================================================================== *)

(** The values a cell can hold when it reaches [cleanNumber]: a string of
    the sheet, [undefined] for a cell past the end of its row, or a number. *)
Inductive value :=
  | VUndefined
  | VString (s : jsstring)
  | VNumber (n : num).

(** [!val]. *)
Definition falsy (val : value) : bool :=
  match val with
  | VUndefined => true
  | VString s => streq s []
  | VNumber n => negb (truthy n)
  end.

Definition cleanNumber (val : value) : num :=
  if falsy val then zero
  else
    match val with
    | VNumber n => n
    | VString s =>
        let cleanStr := trim (removeCommas s) in
        if streq cleanStr [] || streq cleanStr (utf16 "-") then zero
        else
          let num := parseFloat cleanStr in
          if isNaN num then zero else num
    | VUndefined => zero
    end.

(* ===================================================================== *)
(** ** processData *)
(* ===================================================================== *)

(** [row[i]] as a value. *)
Definition cell (row : list jsstring) (i : nat) : value :=
  match row !! i with
  | Some s => VString s
  | None => VUndefined
  end.

(** [!row[i] || row[i].trim() === ''] *)
Definition blank (row : list jsstring) (i : nat) : bool :=
  match row !! i with
  | Some s => streq s [] || streq (trim s) []
  | None => true
  end.

(** The negation of the test that makes the row loop [continue]: the row
    has a category (column 1) and a name (column 3). *)
Definition isProductRow (row : list jsstring) : bool :=
  negb (blank row 1 || blank row 3).

(** Number of day blocks: [Math.floor((totalCols - 8) / 8)], capped. *)
Definition maxDays (totalCols : Z) : Z :=
  let maxDays := (totalCols - 8) / 8 in
  let maxDays := if 31 <? maxDays then 31 else maxDays in
  if maxDays <? 1 then 1 else maxDays.

(** The per-day figures read from one block of eight columns. *)
Record Tally := mkTally {
  broughtForwardSheet : num;
  tReceived : num;
  tSold : num;
  tWaste : num
}.

Definition tally0 : Tally := mkTally zero zero zero zero.

(** Body of the loop over the eight columns of a block. *)
Definition columnStep (header : jsstring) (val : num) (t : Tally) : Tally :=
  let absVal := abs val in
  if includes (utf16 "ยกมา") header then
    mkTally val (tReceived t) (tSold t) (tWaste t)
  else if includes (utf16 "รับเข้า") header || includes (utf16 "total") header then
    mkTally (broughtForwardSheet t) (max (tReceived t) absVal) (tSold t) (tWaste t)
  else if includes (utf16 "ขาย") header || includes (utf16 "ตัดสต็อก") header then
    mkTally (broughtForwardSheet t) (tReceived t) (add (tSold t) absVal) (tWaste t)
  else if includes (utf16 "was") header || includes (utf16 "ทิ้ง") header then
    mkTally (broughtForwardSheet t) (tReceived t) (tSold t) (add (tWaste t) absVal)
  else t.

(** [(row1[i] || '').toLowerCase()] *)
Definition headerAt (row1 : list jsstring) (i : nat) : jsstring :=
  toLowerCase (default [] (row1 !! i)).

(** [for (let c = 0; c < 8; c++) ...] *)
Definition extractBlock (row1 row : list jsstring) (dayStartCol : nat) : Tally :=
  foldl (fun t c =>
           columnStep (headerAt row1 (dayStartCol + c))
                      (cleanNumber (cell row (dayStartCol + c))) t)
        tally0 (seq 0 8).

(** The property names every plain object inherits from
    [Object.prototype]; all are functions, except [__proto__], which is the
    prototype object itself. *)
Definition inheritedKeys : list jsstring :=
  List.map utf16
    ["constructor"%string; "hasOwnProperty"%string; "isPrototypeOf"%string;
     "propertyIsEnumerable"%string; "toLocaleString"%string;
     "toString"%string; "valueOf"%string; "__proto__"%string;
     "__defineGetter__"%string; "__defineSetter__"%string;
     "__lookupGetter__"%string; "__lookupSetter__"%string].

Definition inheritedKey (code : jsstring) : bool :=
  existsb (streq code) inheritedKeys.

(** What [previousDayRemain[code] || 0] can be, hence what the field
    broughtForward of a record can hold: a number, or the function or
    object inherited under the code. *)
Inductive opening :=
  | Stock (n : num)
  | Inherited.

Coercion Stock : num >-> opening.

Record Product := mkProduct {
  category : jsstring;
  code : jsstring;
  name : jsstring;
  broughtForward : opening;
  received : num;
  sold : num;
  waste : num;
  remain : num
}.

(** [!previousDayRemain[code]]: an own property is a number; without one
    the inherited function or object, which is truthy, or [undefined]. *)
Definition noCarry (previousDayRemain : gmap jsstring num) (code : jsstring) : bool :=
  match previousDayRemain !! code with
  | Some v => negb (truthy v)
  | None => negb (inheritedKey code)
  end.

(** [previousDayRemain[code] || 0] *)
Definition carryOrZero (previousDayRemain : gmap jsstring num) (code : jsstring)
  : opening :=
  match previousDayRemain !! code with
  | Some v => Stock (if truthy v then v else zero)
  | None => if inheritedKey code then Inherited else Stock zero
  end.

(** [previousDayRemain[code] = v] for a number [v]: an own property is
    created or overwritten, except under [__proto__], whose setter ignores
    a value that is not an object. *)
Definition protoKey : jsstring := utf16 "__proto__".

Definition setCarry (previousDayRemain : gmap jsstring num) (code : jsstring)
    (v : num) : gmap jsstring num :=
  if streq code protoKey then previousDayRemain
  else <[code := v]> previousDayRemain.

(** [broughtForward + received - sold - waste].  With a function or an
    object for broughtForward the [+] concatenates strings, and the text
    that results is no number: the subtraction gives NaN. *)
Definition closing (broughtForward : opening) (received sold waste : num) : num :=
  match broughtForward with
  | Stock b => sub (sub (add b received) sold) waste
  | Inherited => NaN
  end.

(** [broughtForward !== 0] *)
Definition openingNonzero (broughtForward : opening) : bool :=
  match broughtForward with
  | Stock b => strictNe b zero
  | Inherited => true
  end.

(** State of the loop over the rows of one day. *)
Record RowLoop := mkRowLoop {
  previousDayRemain : gmap jsstring num;
  products : list Product;
  dayHasAnyData : bool
}.

(** Body of the loop over the rows.  [row[3]] is present in a product row,
    hence so is [row[2]]. *)
Definition rowStep (day : nat) (row1 : list jsstring) (st : RowLoop)
    (row : list jsstring) : RowLoop :=
  if negb (isProductRow row) then st
  else
    let dayStartCol := (8 + (day - 1) * 8)%nat in
    let category := default [] (row !! 1%nat) in
    let code := default [] (row !! 2%nat) in
    let name := default [] (row !! 3%nat) in
    let t := extractBlock row1 row dayStartCol in
    let prev := previousDayRemain st in
    let prev :=
      if (day =? 1)%nat && noCarry prev code && gt (broughtForwardSheet t) zero
      then setCarry prev code (broughtForwardSheet t)
      else prev in
    let broughtForward := carryOrZero prev code in
    let remain := closing broughtForward (tReceived t) (tSold t) (tWaste t) in
    let prev := setCarry prev code remain in
    let has :=
      if openingNonzero broughtForward || strictNe (tReceived t) zero
         || strictNe (tSold t) zero || strictNe (tWaste t) zero
         || strictNe remain zero
      then true else dayHasAnyData st in
    mkRowLoop prev
      (products st ++
         [mkProduct category code name broughtForward (tReceived t) (tSold t)
            (tWaste t) remain])
      has.

(** One entry of [globalStoreData].  The date label, read from the header
    with a regular expression, plays no part in the reconciliation and is
    left out. *)
Record DayData := mkDayData {
  dayNum : nat;
  hasData : bool;
  dayProducts : list Product
}.

(** State of the loop over the days. *)
Record DayLoop := mkDayLoop {
  carry : gmap jsstring num;
  globalStoreData : list DayData
}.

(** Body of the loop over the days; [rows] are the rows from index 1 on. *)
Definition dayStep (row1 : list jsstring) (rows : list (list jsstring))
    (st : DayLoop) (day : nat) : DayLoop :=
  let r := foldl (rowStep day row1) (mkRowLoop (carry st) [] false) rows in
  mkDayLoop (previousDayRemain r)
    (globalStoreData st ++ [mkDayData day (dayHasAnyData r) (products r)]).

(** [for (let day = 1; day <= maxDays; day++) ...] from the empty carry. *)
Definition runDays (row1 : list jsstring) (rows : list (list jsstring))
    (n : nat) : DayLoop :=
  foldl (dayStep row1 rows) (mkDayLoop ∅ []) (seq 1 n).

(** The filter that ends the reconciliation. *)
Definition dayFilter (days : list DayData) : list DayData :=
  let validDays := List.filter hasData days in
  if (0 <? length validDays)%nat then validDays else days.

(** [processData(data)], up to the assignment of [globalStoreData]; [None]
    is the early return, which leaves [globalStoreData] as it was. *)
Definition processData (data : list (list jsstring)) : option (list DayData) :=
  match data with
  | row1 :: rows =>
      if (length data <? 2)%nat then None
      else
        let totalCols := Z.of_nat (length row1) in
        let n := Z.to_nat (maxDays totalCols) in
        Some (dayFilter (globalStoreData (runDays row1 rows n)))
  | [] => None
  end.

(** *** The sheet of the end-to-end scenario *)

Local Open Scope string_scope.

(** The eight identity columns of the header row. *)
Definition idHeader : list jsstring :=
  List.map utf16 ["no"; "category"; "code"; "name"; "unit"; "cost"; "price"; "note"].

(** The sub-headers of one day block. *)
Definition blockHeader (label : string) : list jsstring :=
  List.map utf16 [label; "รับเข้า"; "Total"; "ขาย"; "ตัดสต็อก"; "Waste"; "คงเหลือ"; "หมายเหตุ"].

Definition idCells (cat cd nm : string) : list jsstring :=
  List.map utf16 [""; cat; cd; nm; ""; ""; ""; ""].

(** The five figures of a record. *)
Definition stocks (ns : list num) : list opening := List.map Stock ns.

Definition figures (p : Product) : list opening :=
  [broughtForward p; Stock (received p); Stock (sold p); Stock (waste p);
   Stock (remain p)].

Definition scenario : list (list jsstring) :=
  [ (idHeader ++ blockHeader "1 ม.ค. ยกมา" ++ blockHeader "2 ม.ค. ยกมา")%list;
    (idCells "bakery" "P1" "bread"
      ++ List.map utf16 ["10"; "5"; "5"; "2"; "1"; "0"; ""; ""]
      ++ List.map utf16 [""; "3"; ""; "3"; ""; ""; ""; ""])%list ].

Local Close Scope string_scope.

(* ===================================================================== *)
(** ** Arithmetic of non-negative numbers *)
(* ===================================================================== *)

(** [x >= 0]: not NaN and not below zero (either zero qualifies). *)
Definition nonneg (x : num) : bool := ge x zero.

(* ===================================================================== *)
(** ** Trimming and comma removal *)
(* ===================================================================== *)

(** A string is trimmed at the front when it is empty or starts with a
    character that is not white space. *)
Definition frontClean (s : jsstring) : bool :=
  match s with
  | c :: _ => negb (isWhiteSpace c)
  | [] => true
  end.


(** The text [cleanNumber] hands to [parseFloat]. *)
Definition cleanStr (s : jsstring) : jsstring := trim (removeCommas s).

(* ===================================================================== *)
(** ** The row loop, one record at a time *)
(* ===================================================================== *)

Definition rowCategory (row : list jsstring) : jsstring := default [] (row !! 1%nat).
Definition rowCode (row : list jsstring) : jsstring := default [] (row !! 2%nat).
Definition rowName (row : list jsstring) : jsstring := default [] (row !! 3%nat).

(** The figures of [row] in the block of [day]. *)
Definition tallyOf (day : nat) (row1 row : list jsstring) : Tally :=
  extractBlock row1 row (8 + (day - 1) * 8)%nat.

(** The carry map after the day-1 seeding test. *)
Definition seed (day : nat) (prev : gmap jsstring num) (code : jsstring)
    (bfs : num) : gmap jsstring num :=
  if (day =? 1)%nat && noCarry prev code && gt bfs zero
  then setCarry prev code bfs else prev.

(** The record [rowStep] pushes for a product row met with carry [prev]. *)
Definition recordOf (day : nat) (row1 row : list jsstring)
    (prev : gmap jsstring num) : Product :=
  let t := tallyOf day row1 row in
  let bf := carryOrZero (seed day prev (rowCode row) (broughtForwardSheet t))
              (rowCode row) in
  mkProduct (rowCategory row) (rowCode row) (rowName row) bf
    (tReceived t) (tSold t) (tWaste t)
    (closing bf (tReceived t) (tSold t) (tWaste t)).

(** What a record leaves in the carry map. *)
Definition pushCarry (m : gmap jsstring num) (p : Product) : gmap jsstring num :=
  setCarry m (code p) (remain p).

(** [x !== 0] for one of the five figures of a record. *)
Definition active (p : Product) : bool :=
  openingNonzero (broughtForward p) || strictNe (received p) zero
  || strictNe (sold p) zero || strictNe (waste p) zero
  || strictNe (remain p) zero.

(** The records of one day, in row order, from the carry [prev]. *)
Fixpoint dayRecords (day : nat) (row1 : list jsstring)
    (prev : gmap jsstring num) (rows : list (list jsstring)) : list Product :=
  match rows with
  | [] => []
  | row :: rest =>
      if isProductRow row then
        let p := recordOf day row1 row prev in
        p :: dayRecords day row1 (pushCarry prev p) rest
      else dayRecords day row1 prev rest
  end.

(** *** The day loop *)

(** The carry map at the end of day [n] (empty before day 1). *)
Definition carryAfter (row1 : list jsstring) (rows : list (list jsstring))
    (n : nat) : gmap jsstring num :=
  carry (runDays row1 rows n).

(** The entry of [globalStoreData] made on day [d]. *)
Definition dayEntry (row1 : list jsstring) (rows : list (list jsstring))
    (d : nat) : DayData :=
  let ps := dayRecords d row1 (carryAfter row1 rows (d - 1)) rows in
  mkDayData d (existsb active ps) ps.

(* ===================================================================== *)
(** ** Facts about the records *)
(* ===================================================================== *)

(** The identity fields of a record, and of a row. *)
Definition identity (p : Product) : jsstring * jsstring * jsstring :=
  (category p, code p, name p).

Definition rowIdentity (row : list jsstring) : jsstring * jsstring * jsstring :=
  (rowCategory row, rowCode row, rowName row).

(** [x || 0] on a number. *)
Definition orZero (x : num) : num := if truthy x then x else zero.

(* ===================================================================== *)
(** ** Example sheets *)
(* ===================================================================== *)

Local Open Scope string_scope.

(** A sheet with the given product rows and [n] day blocks; a product row
    is its three identity fields and, per day, the eight cells of the
    block. *)
Definition headerRow (n : nat) : list jsstring :=
  (idHeader ++ concat (repeat (blockHeader "ยกมา") n))%list.

Definition productRow (cat cd nm : string) (days : list (list string)) : list jsstring :=
  (idCells cat cd nm ++ List.map utf16 (concat days))%list.

(** One product that sells three units it never had, then receives one. *)
Definition oversoldSheet : list (list jsstring) :=
  [ headerRow 2;
    productRow "bakery" "P1" "bread"
      [ [""; ""; ""; "3"; ""; ""; ""; ""]; [""; "1"; ""; ""; ""; ""; ""; ""] ] ].

(** Two rows carrying the same product code. *)
Definition sharedCodeSheet : list (list jsstring) :=
  [ headerRow 2;
    productRow "bakery" "P1" "bread"
      [ [""; "5"; ""; ""; ""; ""; ""; ""]; [""; ""; ""; ""; ""; ""; ""; ""] ];
    productRow "bakery" "P1" "bread, sliced"
      [ [""; "2"; ""; ""; ""; ""; ""; ""]; [""; ""; ""; ""; ""; ""; ""; ""] ] ].

(** Cells spelling Infinity: received and sold are both infinite. *)
Definition infiniteSheet : list (list jsstring) :=
  [ headerRow 2;
    productRow "bakery" "P1" "bread"
      [ [""; "Infinity"; ""; "Infinity"; ""; ""; ""; ""];
        [""; "1"; ""; ""; ""; ""; ""; ""] ] ].

(** A negative opening balance stated by the sheet. *)
Definition negativeOpeningSheet : list (list jsstring) :=
  [ headerRow 1;
    productRow "bakery" "P1" "bread" [ ["-5"; ""; ""; ""; ""; ""; ""; ""] ] ].

(** Two rows with the same code, each stating an opening balance; the
    first sells all it has. *)
Definition reseededSheet : list (list jsstring) :=
  [ headerRow 1;
    productRow "bakery" "P1" "bread" [ ["10"; ""; ""; "10"; ""; ""; ""; ""] ];
    productRow "bakery" "P1" "bread, sliced" [ ["7"; ""; ""; ""; ""; ""; ""; ""] ] ].

(** A row with a category and a name, but no code. *)
Definition noCodeSheet : list (list jsstring) :=
  [ headerRow 1;
    productRow "bakery" "" "bread" [ [""; "4"; ""; ""; ""; ""; ""; ""] ] ].

(** Nothing happens on day 1 or on day 3; the first delivery is on day 2
    and it is sold out the same day. *)
Definition lateStartSheet : list (list jsstring) :=
  [ headerRow 4;
    productRow "bakery" "P1" "bread"
      [ [""; ""; ""; ""; ""; ""; ""; ""]; [""; "5"; ""; "5"; ""; ""; ""; ""];
        [""; ""; ""; ""; ""; ""; ""; ""]; [""; "2"; ""; ""; ""; ""; ""; ""] ] ].

(** A product whose code is the name of a function every object inherits,
    and one whose code is [__proto__]. *)
Definition inheritedCodeSheet : list (list jsstring) :=
  [ headerRow 2;
    productRow "bakery" "constructor" "bread"
      [ ["10"; "5"; ""; "2"; ""; ""; ""; ""]; [""; "1"; ""; ""; ""; ""; ""; ""] ] ].

Definition protoCodeSheet : list (list jsstring) :=
  [ headerRow 2;
    productRow "bakery" "__proto__" "bread"
      [ ["10"; "5"; ""; "2"; ""; ""; ""; ""]; [""; "1"; ""; ""; ""; ""; ""; ""] ] ].

(** Two rows of code [__proto__]. *)
Definition protoPairSheet : list (list jsstring) :=
  [ headerRow 1;
    productRow "bakery" "__proto__" "bread" [ [""; "5"; ""; ""; ""; ""; ""; ""] ];
    productRow "bakery" "__proto__" "bread, sliced"
      [ [""; "2"; ""; ""; ""; ""; ""; ""] ] ].

Local Close Scope string_scope.

(** The result of [processData] as day number, activity flag and figures. *)
Definition summary (out : option (list DayData))
  : option (list (nat * bool * list (list opening))) :=
  option_map
    (List.map (fun d => (dayNum d, hasData d, List.map figures (dayProducts d))))
    out.

(* ===================================================================== *)
(** ** Aggregation within a day block *)
(* ===================================================================== *)

(** The role of a column, by the first keyword its header contains. *)
Inductive ColumnRole := BroughtForward | Received | Sold | Waste | Ignored.

Definition classify (header : jsstring) : ColumnRole :=
  if includes (utf16 "ยกมา") header then BroughtForward
  else if includes (utf16 "รับเข้า") header || includes (utf16 "total") header
  then Received
  else if includes (utf16 "ขาย") header || includes (utf16 "ตัดสต็อก") header
  then Sold
  else if includes (utf16 "was") header || includes (utf16 "ทิ้ง") header
  then Waste
  else Ignored.

Definition sameRole (a b : ColumnRole) : bool :=
  match a, b with
  | BroughtForward, BroughtForward | Received, Received | Sold, Sold
  | Waste, Waste | Ignored, Ignored => true
  | _, _ => false
  end.

(** The eight columns of a block: role and normalized value. *)
Definition blockColumns (row1 row : list jsstring) (start : nat)
  : list (ColumnRole * num) :=
  List.map (fun c => (classify (headerAt row1 (start + c)),
                      cleanNumber (cell row (start + c))))
           (seq 0 8).

(** The values of the columns of one role, in column order. *)
Definition valuesOf (role : ColumnRole) (cols : list (ColumnRole * num)) : list num :=
  List.map snd (List.filter (fun x => sameRole (fst x) role) cols).

(** The aggregation rules in the words of the specification. *)
Definition lastValue (vs : list num) : num := List.last vs zero.
Definition maxAbs (vs : list num) : num := foldl max zero (List.map abs vs).
Definition sumAbs (vs : list num) : num := foldl add zero (List.map abs vs).

(** *** Order on the non-negative numbers *)

(** A number in the image of [Math.abs], NaN apart. *)
Definition magnitude (x : num) : bool :=
  match x with
  | S754_zero s | S754_infinity s | S754_finite s _ _ => negb s
  | S754_nan => false
  end.

(* ===================================================================== *)
(** ** Which rows are product rows *)
(* ===================================================================== *)

(** The claim of C4, with the code field among the fields tested. *)
Definition hasCategoryCodeName (row : list jsstring) : bool :=
  negb (blank row 1 || blank row 2 || blank row 3).

(* ===================================================================== *)
(** ** The carry-forward chain *)
(* ===================================================================== *)

(** Number of records with code [c], and of product rows with code [c]. *)
Definition codeCount (c : jsstring) (ps : list Product) : nat :=
  length (List.filter (fun p => streq (code p) c) ps).

Definition occurrences (c : jsstring) (rows : list (list jsstring)) : nat :=
  length (List.filter (fun r => streq (rowCode r) c)
            (List.filter isProductRow rows)).

(** *** Reading a result *)

Definition noProduct : Product := mkProduct [] [] [] zero zero zero zero zero.

(** The [i]-th entry of the result for [data], and its [j]-th record. *)
Definition entryAt (data : list (list jsstring)) (i : nat) : DayData :=
  nth i (default [] (processData data)) (mkDayData 0 false []).

Definition recordAt (data : list (list jsstring)) (i j : nat) : Product :=
  nth j (dayProducts (entryAt data i)) noProduct.

Ltac by_compute :=
  vm_compute;
  first [ reflexivity
        | apply list_elem_of_here
        | apply list_elem_of_further, list_elem_of_here
        | repeat constructor; discriminate ].

(* ===================================================================== *)
(** ** The rest of processData: date labels and the default day *)
(* ===================================================================== *)

(** [[^ ]+], greedy: the longest run of code units other than the space. *)
Fixpoint notSpaces (s : jsstring) : jsstring :=
  match s with
  | c :: r => if (c =? 32)%N then [] else c :: notSpaces r
  | [] => []
  end.

Definition matchToken (s : jsstring) : option jsstring :=
  match notSpaces s with
  | [] => None
  | t => Some t
  end.

(** [\s+[^ ]+]: one white-space character, then more of them if the rest
    can still be matched that way, the token otherwise (greedy, with the
    backtracking of the regular expression). *)
Fixpoint matchSpaces (s : jsstring) : option jsstring :=
  match s with
  | c :: r =>
      if isWhiteSpace c then
        match matchSpaces r with
        | Some m => Some (c :: m)
        | None => option_map (cons c) (matchToken r)
        end
      else None
  | [] => None
  end.

(** [/^\d+\s+[^ ]+/]: the matched text, if any. *)
Fixpoint matchDateLabel (s : jsstring) : option jsstring :=
  match s with
  | c :: r =>
      if isDigit c then
        match matchDateLabel r with
        | Some m => Some (c :: m)
        | None => option_map (cons c) (matchSpaces r)
        end
      else None
  | [] => None
  end.

(** The decimal digits of a day number, as a template literal prints it. *)
Fixpoint decimalAux (fuel : nat) (n : N) (acc : jsstring) : jsstring :=
  match fuel with
  | O => acc
  | S fuel' =>
      let acc' := (48 + n mod 10)%N :: acc in
      if (n / 10 =? 0)%N then acc' else decimalAux fuel' (n / 10)%N acc'
  end.

Definition decimal (n : nat) : jsstring :=
  decimalAux (S n) (N.of_nat n) [].

(** The label of a day: the date read from the header cell that opens the
    block, or the word for day followed by the day number. *)
Definition dateLabel (row1 : list jsstring) (day : nat) : jsstring :=
  let dayStartCol := (8 + (day - 1) * 8)%nat in
  let dateLabel := utf16 "วันที่ " ++ decimal day in
  match row1 !! dayStartCol with
  | Some h =>
      if streq h [] then dateLabel
      else match matchDateLabel h with
           | Some m => m
           | None => dateLabel
           end
  | None => dateLabel
  end.

(** [products.reduce((acc, p) => acc + p.sold, 0)] *)
Definition daySales (D : DayData) : num :=
  foldl (fun acc p => add acc (sold p)) zero (dayProducts D).

(** [for (let j = n - 1; j >= 0; j--)] with its [break]: the first index,
    going down from [n - 1], of a day with sales above zero. *)
Fixpoint scanDown (days : list DayData) (n : nat) : option nat :=
  match n with
  | O => None
  | S j =>
      if gt (daySales (nth j days (mkDayData 0 false []))) zero then Some j
      else scanDown days j
  end.

(** The value of [activeDayIndex] after processData; the index is -1 at
    start and an option index of the selector afterwards. *)
Definition selectActiveDay (activeDayIndex : Z) (days : list DayData) : Z :=
  if (activeDayIndex =? -1) || (Z.of_nat (length days) <=? activeDayIndex)
  then
    match scanDown days (length days) with
    | Some j => Z.of_nat j
    | None => Z.of_nat (length days) - 1
    end
  else activeDayIndex.

(* ===================================================================== *)
(** ** updateDashboardView and renderTrendChart: the sums *)
(* ===================================================================== *)

Record Totals := mkTotals {
  totalRec : num;
  totalSold : num;
  totalWa : num;
  totalRem : num
}.

(** The loop of updateDashboardView over the records of the current day. *)
Definition dayTotals (ps : list Product) : Totals :=
  foldl (fun t p =>
           mkTotals (add (totalRec t) (received p)) (add (totalSold t) (sold p))
                    (add (totalWa t) (waste p)) (add (totalRem t) (remain p)))
        (mkTotals zero zero zero zero) ps.

(** [Math.max(0, totalRem)], the remaining stock shown on the card. *)
Definition shownRemaining (t : Totals) : num := max zero (totalRem t).

(** The guard of updateDashboardView: [true] when it returns at once. *)
Definition viewSkipped (activeDayIndex : Z) (days : list DayData) : bool :=
  (activeDayIndex <? 0) || (Z.of_nat (length days) <=? activeDayIndex).

(** The three series of renderTrendChart: per day, the sums of received,
    sold and waste. *)
Definition trendPoint (D : DayData) : num * num * num :=
  foldl (fun '(recv, sold', waste') p =>
           (add recv (received p), add sold' (sold p), add waste' (waste p)))
        (zero, zero, zero) (dayProducts D).

Definition trendSeries (days : list DayData) : list (num * num * num) :=
  List.map trendPoint days.

(* ===================================================================== *)
(** ** Vocabulary of the further properties *)
(* ===================================================================== *)

(** The integer spelled by a string of decimal digits. *)
Definition digitsValue (ds : jsstring) : Z :=
  foldl (fun acc c => 10 * acc + (Z.of_N c - 48)) 0 ds.

(** Digits and commas only. *)
Definition digitOrComma (c : N) : bool := isDigit c || (c =? 44)%N.

(** The rows of the sheet that carry code [c]. *)
Definition rowsOfCode (c : jsstring) (rows : list (list jsstring))
  : list (list jsstring) :=
  List.filter (fun r => streq (rowCode r) c) rows.

Definition recordsOfCode (c : jsstring) (ps : list Product) : list Product :=
  List.filter (fun p => streq (code p) c) ps.

(** The text the regular expression of the date label accepts: digits,
    white space, then a token without a space; [rest] is what follows the
    match in the cell. *)
Definition noSpace (c : N) : bool := negb (c =? 32)%N.

Definition dateShaped (m rest : jsstring) : Prop :=
  exists ds ws tok,
    m = ds ++ ws ++ tok
    /\ ds <> [] /\ forallb isDigit ds = true
    /\ ws <> [] /\ forallb isWhiteSpace ws = true
    /\ tok <> [] /\ forallb noSpace tok = true
    /\ (rest = [] \/ exists r, rest = 32%N :: r).

(** The label used when the header cell gives none. *)
Definition defaultLabel (day : nat) : jsstring :=
  utf16 "วันที่ " ++ decimal day.

(** The record of a row on a day without figures and without stock. *)
Definition emptyRecord (row : list jsstring) : Product :=
  mkProduct (rowCategory row) (rowCode row) (rowName row)
    zero zero zero zero zero.

(* ********************************************************************* *)
(** * Part II: properties *)
(* ********************************************************************* *)

(* ===================================================================== *)
(** ** Arithmetic of non-negative numbers *)
(* ===================================================================== *)

Section Rounding.

Lemma shr_1_nonneg r : 0 <= shr_m r -> 0 <= shr_m (shr_1 r).
Proof.
  destruct r as [m rb sb]; simpl; intros Hm.
  destruct m as [|q|q]; simpl; try lia; destruct q; simpl; lia.
Qed.

Lemma iter_shr_1_nonneg (p : positive) :
  forall r, 0 <= shr_m r -> 0 <= shr_m (SpecFloat.iter_pos shr_1 p r).
Proof.
  induction p as [p IH|p IH|]; simpl; intros r Hr.
  - apply IH, IH, shr_1_nonneg, Hr.
  - apply IH, IH, Hr.
  - apply shr_1_nonneg, Hr.
Qed.

Lemma shr_fexp_nonneg m e l :
  0 <= m -> 0 <= shr_m (fst (shr_fexp prec emax m e l)).
Proof.
  intros Hm. unfold shr_fexp, shr.
  assert (H0 : 0 <= shr_m (shr_record_of_loc m l))
    by (destruct l as [|[]]; simpl; exact Hm).
  destruct (_ - e) as [|p|p]; simpl; auto using iter_shr_1_nonneg.
Qed.

Lemma round_nearest_even_nonneg m l :
  0 <= m -> 0 <= round_nearest_even m l.
Proof.
  intros Hm. destruct l as [|[]]; simpl; try lia.
  destruct (Z.even m); lia.
Qed.

(** Rounding a non-negative mantissa never yields NaN and keeps the sign
    it was given. *)
Lemma binary_round_aux_sign sx mx ex lx :
  0 <= mx ->
  match binary_round_aux prec emax sx mx ex lx with
  | S754_zero s | S754_infinity s | S754_finite s _ _ => s = sx
  | S754_nan => False
  end.
Proof.
  intros Hm. unfold binary_round_aux.
  pose proof (shr_fexp_nonneg mx ex lx Hm) as H1.
  destruct (shr_fexp prec emax mx ex lx) as [mrs1 e1]; simpl in H1.
  pose proof (shr_fexp_nonneg _ e1 loc_Exact
                (round_nearest_even_nonneg _ (loc_of_shr_record mrs1) H1))
    as H2.
  destruct (shr_fexp prec emax _ e1 loc_Exact) as [mrs2 e2]; simpl in H2.
  destruct (shr_m mrs2) as [|q|q]; try reflexivity; try lia.
  destruct (e2 <=? _); reflexivity.
Qed.

Lemma binary_round_sign sx mx ex :
  match binary_round prec emax sx mx ex with
  | S754_zero s | S754_infinity s | S754_finite s _ _ => s = sx
  | S754_nan => False
  end.
Proof.
  unfold binary_round. destruct (shl_align _ _ _) as [mz ez].
  apply binary_round_aux_sign. lia.
Qed.

End Rounding.

Lemma nonneg_spec x :
  nonneg x = true <->
  match x with
  | S754_zero _ => True
  | S754_infinity s | S754_finite s _ _ => s = false
  | S754_nan => False
  end.
Proof.
  unfold nonneg, ge, SFleb, zero.
  destruct x as [s|s| |s m e]; simpl; try destruct s; simpl; intuition congruence.
Qed.

Lemma nonneg_abs x : isNaN x = false -> nonneg (abs x) = true.
Proof. destruct x; simpl; intros; try reflexivity; discriminate. Qed.

Lemma nonneg_add x y :
  nonneg x = true -> nonneg y = true -> nonneg (add x y) = true.
Proof.
  rewrite !nonneg_spec. unfold add.
  destruct x as [sx|sx| |sx mx ex], y as [sy|sy| |sy my ey]; simpl;
    intros Hx Hy; subst; try tauto; try reflexivity.
  - destruct sx, sy; exact I.
  - simpl. pose proof (binary_round_sign false
      (fst (shl_align mx ex (Z.min ex ey)) + fst (shl_align my ey (Z.min ex ey)))
      (Z.min ex ey)) as H.
    destruct (binary_round _ _ _ _ _); auto.
Qed.

Lemma nonneg_max x y :
  nonneg x = true -> nonneg y = true -> nonneg (max x y) = true.
Proof.
  rewrite !nonneg_spec. unfold max.
  destruct x as [sx|sx| |sx mx ex], y as [sy|sy| |sy my ey]; simpl;
    intros Hx Hy; subst; try tauto;
    match goal with |- context [SFltb ?a ?b] => destruct (SFltb a b) end;
    simpl; auto.
Qed.

(* ===================================================================== *)
(** ** Trimming and comma removal *)
(* ===================================================================== *)

Lemma trimStart_whitespace s :
  forallb isWhiteSpace s = true -> trimStart s = [].
Proof.
  induction s as [|c r IH]; simpl; [reflexivity|].
  intros [Hc Hr]%andb_true_iff. rewrite Hc. auto.
Qed.



Lemma trimStart_frontClean s : frontClean s = true -> trimStart s = s.
Proof.
  destruct s as [|c r]; simpl; [reflexivity|].
  now intros ->%negb_true_iff.
Qed.













(* ===================================================================== *)
(** ** cleanNumber *)
(* ===================================================================== *)

Lemma streq_true a b : streq a b = true <-> a = b.
Proof. unfold streq. apply bool_decide_eq_true. Qed.

Lemma streq_nil_cons c r : streq (c :: r) [] = false.
Proof. unfold streq. now apply bool_decide_eq_false. Qed.

(** On a string, [cleanNumber] depends on the cleaned text only. *)
Lemma cleanNumber_string s :
  cleanNumber (VString s) =
    if streq (cleanStr s) [] || streq (cleanStr s) (utf16 "-") then zero
    else if isNaN (parseFloat (cleanStr s)) then zero
    else parseFloat (cleanStr s).
Proof.
  unfold cleanNumber, falsy; fold (cleanStr s).
  destruct s as [|c r]; [reflexivity|]. now rewrite streq_nil_cons.
Qed.

Lemma cleanNumber_number n :
  cleanNumber (VNumber n) = if truthy n then n else zero.
Proof. unfold cleanNumber, falsy. now destruct (truthy n). Qed.

Lemma cleanNumber_not_NaN v : isNaN (cleanNumber v) = false.
Proof.
  destruct v as [|s|n].
  - reflexivity.
  - rewrite cleanNumber_string.
    destruct (_ || _); [reflexivity|].
    destruct (isNaN (parseFloat _)) eqn:E; [reflexivity|exact E].
  - rewrite cleanNumber_number. now destruct n.
Qed.

(* ===================================================================== *)
(** ** The row loop, one record at a time *)
(* ===================================================================== *)

Lemma rowStep_skip day row1 st row :
  isProductRow row = false -> rowStep day row1 st row = st.
Proof. unfold rowStep. now intros ->. Qed.

Lemma setCarry_twice m c a b : setCarry (setCarry m c a) c b = setCarry m c b.
Proof.
  unfold setCarry. destruct (streq c _); [reflexivity|apply insert_insert_eq].
Qed.

Lemma rowStep_product day row1 st row :
  isProductRow row = true ->
  let p := recordOf day row1 row (previousDayRemain st) in
  rowStep day row1 st row =
    mkRowLoop (pushCarry (previousDayRemain st) p) (products st ++ [p])
      (if active p then true else dayHasAnyData st).
Proof.
  intros Hrow p. unfold rowStep. rewrite Hrow. simpl.
  fold (rowCode row) (rowCategory row) (rowName row) (tallyOf day row1 row).
  fold (seed day (previousDayRemain st) (rowCode row)
          (broughtForwardSheet (tallyOf day row1 row))).
  f_equal.
  unfold pushCarry, p, recordOf, seed; simpl.
  destruct (_ && _ && _); [|reflexivity].
  apply setCarry_twice.
Qed.

Lemma rowLoop_spec day row1 rows : forall st,
  let r := foldl (rowStep day row1) st rows in
  let ps := dayRecords day row1 (previousDayRemain st) rows in
  products r = products st ++ ps
  /\ previousDayRemain r = foldl pushCarry (previousDayRemain st) ps
  /\ dayHasAnyData r = dayHasAnyData st || existsb active ps.
Proof.
  induction rows as [|row rest IH]; intros st; simpl.
  - rewrite app_nil_r, orb_false_r. auto.
  - destruct (isProductRow row) eqn:Hrow.
    + rewrite rowStep_product by exact Hrow.
      destruct (IH (mkRowLoop
        (pushCarry (previousDayRemain st) (recordOf day row1 row (previousDayRemain st)))
        (products st ++ [recordOf day row1 row (previousDayRemain st)])
        (if active (recordOf day row1 row (previousDayRemain st)) then true
         else dayHasAnyData st))) as (E1 & E2 & E3).
      simpl in *. rewrite E1, E2, E3, <- app_assoc. simpl.
      repeat split.
      destruct (active _), (dayHasAnyData st); reflexivity.
    + rewrite rowStep_skip by exact Hrow. apply IH.
Qed.

Lemma dayStep_spec row1 rows st day :
  let ps := dayRecords day row1 (carry st) rows in
  dayStep row1 rows st day =
    mkDayLoop (foldl pushCarry (carry st) ps)
      (globalStoreData st ++ [mkDayData day (existsb active ps) ps]).
Proof.
  unfold dayStep.
  destruct (rowLoop_spec day row1 rows (mkRowLoop (carry st) [] false))
    as (E1 & E2 & E3).
  simpl in *. now rewrite E1, E2, E3.
Qed.

Lemma runDays_S row1 rows n :
  runDays row1 rows (S n) = dayStep row1 rows (runDays row1 rows n) (S n).
Proof. unfold runDays. now rewrite seq_S, foldl_app. Qed.

Lemma runDays_entries row1 rows n :
  globalStoreData (runDays row1 rows n) =
    List.map (dayEntry row1 rows) (seq 1 n).
Proof.
  induction n as [|n IH]; [reflexivity|].
  rewrite runDays_S, dayStep_spec, seq_S, List.map_app. simpl.
  rewrite IH. unfold dayEntry, carryAfter.
  now replace (S n - 1)%nat with n by lia.
Qed.

Lemma carryAfter_S row1 rows n :
  carryAfter row1 rows (S n) =
    foldl pushCarry (carryAfter row1 rows n)
      (dayProducts (dayEntry row1 rows (S n))).
Proof.
  unfold carryAfter. rewrite runDays_S, dayStep_spec. simpl.
  unfold carryAfter. now replace (n - 0)%nat with n by lia.
Qed.

Lemma dayFilter_subset days D : D ∈ dayFilter days -> D ∈ days.
Proof.
  unfold dayFilter. destruct (0 <? _)%nat; [|auto].
  rewrite list_elem_of_In, filter_In, <- list_elem_of_In. tauto.
Qed.

(** Every entry of the result is the entry of some day of the run. *)
Lemma processData_entry data out D :
  processData data = Some out -> D ∈ out ->
  exists row1 rows d,
    data = row1 :: rows /\ (1 <= d)%nat /\ D = dayEntry row1 rows d.
Proof.
  unfold processData. destruct data as [|row1 rows]; [discriminate|].
  destruct (_ <? 2)%nat; [discriminate|].
  intros [= <-] HD%dayFilter_subset.
  rewrite runDays_entries in HD.
  apply list_elem_of_In, in_map_iff in HD as (d & <- & Hd%in_seq).
  exists row1, rows, d. repeat split; lia.
Qed.

(* ===================================================================== *)
(** ** Facts about the records *)
(* ===================================================================== *)

Lemma columnStep_nonneg header val t :
  isNaN val = false ->
  nonneg (tReceived t) = true -> nonneg (tSold t) = true ->
  nonneg (tWaste t) = true ->
  let t' := columnStep header val t in
  nonneg (tReceived t') = true /\ nonneg (tSold t') = true
  /\ nonneg (tWaste t') = true.
Proof.
  intros Hv Hr Hs Hw. unfold columnStep.
  pose proof (nonneg_abs val Hv) as Ha.
  repeat match goal with |- context [if ?b then _ else _] => destruct b end;
    simpl; auto using nonneg_add, nonneg_max.
Qed.

Lemma extractBlock_nonneg row1 row start :
  let t := extractBlock row1 row start in
  nonneg (tReceived t) = true /\ nonneg (tSold t) = true
  /\ nonneg (tWaste t) = true.
Proof.
  unfold extractBlock.
  assert (H0 : nonneg (tReceived tally0) = true /\ nonneg (tSold tally0) = true
               /\ nonneg (tWaste tally0) = true) by (repeat split).
  revert H0. generalize tally0. generalize (seq 0 8).
  induction l as [|c l IH]; intros t (Hr & Hs & Hw); simpl; [auto|].
  apply IH, columnStep_nonneg; auto using cleanNumber_not_NaN.
Qed.

(** A property of every record a product row can produce holds of all the
    records of a day. *)
Lemma dayRecords_Forall (P : Product -> Prop) day row1 rows :
  (forall row prev, isProductRow row = true -> P (recordOf day row1 row prev)) ->
  forall prev, Forall P (dayRecords day row1 prev rows).
Proof.
  intros HP. induction rows as [|row rest IH]; intros prev; simpl.
  - constructor.
  - destruct (isProductRow row) eqn:Hrow; [constructor|]; auto.
Qed.

Lemma dayRecords_identity day row1 rows : forall prev,
  List.map identity (dayRecords day row1 prev rows) =
    List.map rowIdentity (List.filter isProductRow rows).
Proof.
  induction rows as [|row rest IH]; intros prev; simpl; [reflexivity|].
  destruct (isProductRow row); simpl; [f_equal|]; apply IH.
Qed.

(** A record in the middle of a day was built from the carry left by the
    records before it. *)
Lemma dayRecords_split day row1 rows : forall prev ps1 b ps2,
  dayRecords day row1 prev rows = ps1 ++ b :: ps2 ->
  exists row, isProductRow row = true /\ row ∈ rows
    /\ b = recordOf day row1 row (foldl pushCarry prev ps1).
Proof.
  induction rows as [|row rest IH]; intros prev ps1 b ps2; simpl.
  - destruct ps1; discriminate.
  - destruct (isProductRow row) eqn:Hrow.
    + destruct ps1 as [|a ps1]; simpl; intros [= E1 E2].
      * exists row. repeat split; [exact Hrow|constructor|now symmetry].
      * subst a. destruct (IH _ _ _ _ E2) as (r & H1 & H2 & H3).
        exists r. repeat split; [exact H1|now constructor|exact H3].
    + intros E. destruct (IH _ _ _ _ E) as (r & H1 & H2 & H3).
      exists r. repeat split; [exact H1|now constructor|exact H3].
Qed.

(** The same, naming the row by its place among the product rows. *)
Lemma dayRecords_split_at day row1 rows : forall prev ps1 b ps2,
  dayRecords day row1 prev rows = ps1 ++ b :: ps2 ->
  exists row, List.filter isProductRow rows !! length ps1 = Some row
    /\ b = recordOf day row1 row (foldl pushCarry prev ps1).
Proof.
  induction rows as [|row rest IH]; intros prev ps1 b ps2; simpl.
  - destruct ps1; discriminate.
  - destruct (isProductRow row) eqn:Hrow.
    + destruct ps1 as [|a ps1]; simpl; intros [= E1 E2].
      * exists row. split; [reflexivity|now symmetry].
      * subst a. destruct (IH _ _ _ _ E2) as (r & H1 & H2).
        exists r. split; [exact H1|exact H2].
    + intros E. exact (IH _ _ _ _ E).
Qed.

(** *** The carry map *)

Lemma lookup_setCarry_ne m c c' v : c <> c' -> setCarry m c v !! c' = m !! c'.
Proof.
  intros H. unfold setCarry. destruct (streq c protoKey); [reflexivity|].
  now apply lookup_insert_ne.
Qed.

Lemma lookup_setCarry_eq m c v : c <> protoKey -> setCarry m c v !! c = Some v.
Proof.
  intros H. unfold setCarry.
  destruct (streq c protoKey) eqn:E; [apply streq_true in E; congruence|].
  apply lookup_insert_eq.
Qed.

Lemma lookup_pushCarry_other c ps : forall m,
  Forall (fun p => code p <> c) ps -> foldl pushCarry m ps !! c = m !! c.
Proof.
  induction ps as [|p ps IH]; intros m H; simpl; [reflexivity|].
  inversion H as [|? ? Hp Hps]; subst.
  rewrite IH by exact Hps. unfold pushCarry. now apply lookup_setCarry_ne.
Qed.

Lemma lookup_pushCarry_last m ps1 a ps2 :
  code a <> protoKey ->
  Forall (fun p => code p <> code a) ps2 ->
  foldl pushCarry m (ps1 ++ a :: ps2) !! code a = Some (remain a).
Proof.
  intros Ha H. rewrite foldl_app. simpl.
  rewrite lookup_pushCarry_other by exact H.
  unfold pushCarry. now apply lookup_setCarry_eq.
Qed.

Lemma gt_zero_truthy x : gt x zero = true -> truthy x = true.
Proof. destruct x as [[]|[]| |[] m e]; try discriminate; reflexivity. Qed.

(** The two ways a record gets its opening stock: seeded from the sheet on
    day 1, or read from the carry map. *)
Lemma broughtForward_recordOf day row1 row prev :
  let b := recordOf day row1 row prev in
  let bfs := broughtForwardSheet (tallyOf day row1 row) in
  broughtForward b =
    if (day =? 1)%nat && noCarry prev (rowCode row) && gt bfs zero
       && negb (streq (rowCode row) protoKey)
    then Stock bfs else carryOrZero prev (rowCode row).
Proof.
  simpl. unfold seed.
  destruct (_ && _ && _) eqn:E; [|reflexivity].
  apply andb_true_iff in E as [_ E]. simpl andb.
  unfold setCarry.
  destruct (streq (rowCode row) protoKey) eqn:P; [reflexivity|]. simpl.
  unfold carryOrZero. rewrite lookup_insert_eq.
  now rewrite (gt_zero_truthy _ E).
Qed.

Lemma carryOrZero_lookup prev c r :
  prev !! c = Some r -> carryOrZero prev c = Stock (orZero r).
Proof. unfold carryOrZero, orZero. now intros ->. Qed.

Lemma carryOrZero_none prev c :
  prev !! c = None -> inheritedKey c = false -> carryOrZero prev c = Stock zero.
Proof. unfold carryOrZero. now intros -> ->. Qed.

Lemma noCarry_lookup prev c r :
  prev !! c = Some r -> noCarry prev c = negb (truthy r).
Proof. unfold noCarry. now intros ->. Qed.

Lemma noCarry_none prev c :
  prev !! c = None -> noCarry prev c = negb (inheritedKey c).
Proof. unfold noCarry. now intros ->. Qed.

Lemma inheritedKey_proto : inheritedKey protoKey = true.
Proof. reflexivity. Qed.

Lemma not_inherited_not_proto c : inheritedKey c = false -> c <> protoKey.
Proof. intros H ->. discriminate H. Qed.

(* ===================================================================== *)
(** ** Stock balance and signs of the figures *)
(* ===================================================================== *)

Lemma processData_Forall (P : Product -> Prop) :
  (forall day row1 row prev, isProductRow row = true ->
     P (recordOf day row1 row prev)) ->
  forall data out D p,
    processData data = Some out -> D ∈ out -> p ∈ dayProducts D -> P p.
Proof.
  intros HP data out D p Hout HD Hp.
  destruct (processData_entry _ _ _ Hout HD) as (row1 & rows & d & _ & _ & ->).
  simpl in Hp. revert p Hp. apply Forall_forall, dayRecords_Forall.
  intros row prev. apply HP.
Qed.

Lemma strictEq_refl x : isNaN x = false -> strictEq x x = true.
Proof.
  destruct x as [[]|[]| |[] m e]; try discriminate; intros _; try reflexivity;
    unfold strictEq, SFeqb; simpl;
    now rewrite Z.compare_refl, Pos.compare_cont_refl.
Qed.

(** The opening stock of a record is a number unless the code names an
    inherited property. *)
Lemma recordOf_opening day row1 row prev :
  inheritedKey (rowCode row) = false ->
  exists b, broughtForward (recordOf day row1 row prev) = Stock b.
Proof.
  intros H. rewrite broughtForward_recordOf.
  destruct (_ && _ && _ && _); [eauto|].
  unfold carryOrZero. rewrite H. destruct (prev !! rowCode row); eauto.
Qed.

(** C1, as stated, fails.  With a product code spelled constructor the
    carry map yields the function every object inherits under that name:
    the opening stock of the record is no number and its closing stock is
    NaN.  And with received and sold cells that both spell Infinity the
    closing stock is NaN, which is [==] to nothing, itself included. *)
Lemma balance_counterexample :
  ~ (forall data out D p,
       processData data = Some out -> D ∈ out -> p ∈ dayProducts D ->
       exists b,
         broughtForward p = Stock b
         /\ remain p = sub (sub (add b (received p)) (sold p)) (waste p))
  /\ ~ (forall data out D p b,
          processData data = Some out -> D ∈ out -> p ∈ dayProducts D ->
          broughtForward p = Stock b ->
          strictEq (remain p)
            (sub (sub (add b (received p)) (sold p)) (waste p)) = true).
Proof.
  split; intros H.
  - assert (E : exists b,
               broughtForward (recordAt inheritedCodeSheet 0 0) = Stock b
               /\ remain (recordAt inheritedCodeSheet 0 0)
                  = sub (sub (add b (received (recordAt inheritedCodeSheet 0 0)))
                           (sold (recordAt inheritedCodeSheet 0 0)))
                      (waste (recordAt inheritedCodeSheet 0 0))).
    { apply (H inheritedCodeSheet (default [] (processData inheritedCodeSheet))
               (entryAt inheritedCodeSheet 0)); by_compute. }
    destruct E as (b & E & _). vm_compute in E. discriminate E.
  - assert (E : strictEq (remain (recordAt infiniteSheet 0 0))
                  (sub (sub (add zero (received (recordAt infiniteSheet 0 0)))
                          (sold (recordAt infiniteSheet 0 0)))
                     (waste (recordAt infiniteSheet 0 0))) = true).
    { apply (H infiniteSheet (default [] (processData infiniteSheet))
               (entryAt infiniteSheet 0)); by_compute. }
    vm_compute in E. discriminate E.
Qed.

(** C1, as the code has it. In every record of every day of the result
    whose opening stock is a number, which it is whenever the product code
    is not the name of a property objects inherit, the closing stock is
    remain = broughtForward + received - sold - waste, computed with the
    additions and subtractions of the source and nothing else (no rounding
    step, no clamping): the same number, and [==] to it unless it is NaN.
    A negative remain is emitted as it is: the sheet that sells three units
    it never had yields remain -3 on day 1. *)
Theorem remain_is_balance :
  (forall data out D p,
     processData data = Some out -> D ∈ out -> p ∈ dayProducts D ->
     (inheritedKey (code p) = false -> exists b, broughtForward p = Stock b)
     /\ forall b,
          broughtForward p = Stock b ->
          remain p = sub (sub (add b (received p)) (sold p)) (waste p)
          /\ (isNaN (remain p) = false ->
              strictEq (remain p)
                (sub (sub (add b (received p)) (sold p)) (waste p)) = true))
  /\ summary (processData oversoldSheet) =
       Some [ (1%nat, true, [[Stock zero; Stock zero; Stock (ofZ 3);
                              Stock zero; Stock (ofZ (-3))]]);
              (2%nat, true, [[Stock (ofZ (-3)); Stock (ofZ 1); Stock zero;
                              Stock zero; Stock (ofZ (-2))]]) ].
Proof.
  split.
  - apply (processData_Forall (fun p =>
      (inheritedKey (code p) = false -> exists b, broughtForward p = Stock b)
      /\ forall b,
           broughtForward p = Stock b ->
           remain p = sub (sub (add b (received p)) (sold p)) (waste p)
           /\ (isNaN (remain p) = false ->
               strictEq (remain p)
                 (sub (sub (add b (received p)) (sold p)) (waste p)) = true))).
    intros day row1 row prev _. split; [apply recordOf_opening|].
    intros b Hb.
    assert (E : remain (recordOf day row1 row prev)
                = sub (sub (add b (received (recordOf day row1 row prev)))
                         (sold (recordOf day row1 row prev)))
                    (waste (recordOf day row1 row prev))).
    { revert Hb. unfold recordOf. cbv zeta.
      cbn [broughtForward remain received sold waste]. now intros ->. }
    split; [exact E|]. intros Hn. rewrite <- E. now apply strictEq_refl.
  - vm_compute. reflexivity.
Qed.

(** The statement above at the second day of the oversold sheet. *)
Lemma remain_is_balance_witness :
  (inheritedKey (code (recordAt oversoldSheet 1 0)) = false ->
   exists b, broughtForward (recordAt oversoldSheet 1 0) = Stock b)
  /\ forall b,
       broughtForward (recordAt oversoldSheet 1 0) = Stock b ->
       remain (recordAt oversoldSheet 1 0)
       = sub (sub (add b (received (recordAt oversoldSheet 1 0)))
                (sold (recordAt oversoldSheet 1 0)))
           (waste (recordAt oversoldSheet 1 0))
       /\ (isNaN (remain (recordAt oversoldSheet 1 0)) = false ->
           strictEq (remain (recordAt oversoldSheet 1 0))
             (sub (sub (add b (received (recordAt oversoldSheet 1 0)))
                     (sold (recordAt oversoldSheet 1 0)))
                (waste (recordAt oversoldSheet 1 0))) = true).
Proof.
  apply (proj1 remain_is_balance oversoldSheet
           (default [] (processData oversoldSheet)) (entryAt oversoldSheet 1));
    by_compute.
Defined.

(** C9. In every record of the result received, sold and waste are at
    least zero (and are not NaN), whatever the signs of the cells; the
    opening and the closing stock can be negative, as on day 2 of the
    oversold sheet. *)
Theorem movements_nonnegative :
  (forall data out D p,
     processData data = Some out -> D ∈ out -> p ∈ dayProducts D ->
     nonneg (received p) = true /\ nonneg (sold p) = true
     /\ nonneg (waste p) = true)
  /\ (exists out D p b,
        processData oversoldSheet = Some out /\ D ∈ out /\ p ∈ dayProducts D
        /\ broughtForward p = Stock b /\ gt zero b = true
        /\ gt zero (remain p) = true).
Proof.
  split.
  - apply (processData_Forall (fun p => nonneg (received p) = true
      /\ nonneg (sold p) = true /\ nonneg (waste p) = true)).
    intros day row1 row prev _. apply extractBlock_nonneg.
  - eexists _, _, _, _. split; [vm_compute; reflexivity|].
    split; [apply list_elem_of_further, list_elem_of_here|].
    split; [apply list_elem_of_here|]. repeat split; reflexivity.
Qed.

(** The statement above at the first day of the oversold sheet, whose
    sold cell is the only one filled. *)
Lemma movements_nonnegative_witness :
  nonneg (received (recordAt oversoldSheet 0 0)) = true
  /\ nonneg (sold (recordAt oversoldSheet 0 0)) = true
  /\ nonneg (waste (recordAt oversoldSheet 0 0)) = true.
Proof.
  apply (proj1 movements_nonnegative oversoldSheet
           (default [] (processData oversoldSheet)) (entryAt oversoldSheet 0));
    by_compute.
Defined.

(* ===================================================================== *)
(** ** Number of day blocks *)
(* ===================================================================== *)

(** C6, as the code has it. The number of day blocks is the floor of
    (totalColumns - 8) / 8, brought into the range from 1 to 31; 8 columns
    give 1 day, 16 columns give 1 day as well (eight identity columns and
    one block), 24 give 2, 100 give 11 and 5 give 1.  The day loop makes
    that many entries. *)
Theorem maxDays_clamped :
  (forall totalCols,
     exists q, 8 * q <= totalCols - 8 < 8 * q + 8
               /\ maxDays totalCols = Z.max 1 (Z.min 31 q))
  /\ (forall totalCols, 1 <= maxDays totalCols <= 31)
  /\ maxDays 8 = 1 /\ maxDays 16 = 1 /\ maxDays 24 = 2
  /\ maxDays 100 = 11 /\ maxDays 5 = 1
  /\ (forall row1 rows,
        Z.of_nat (length (globalStoreData
          (runDays row1 rows (Z.to_nat (maxDays (Z.of_nat (length row1)))))))
        = maxDays (Z.of_nat (length row1))).
Proof.
  assert (R : forall n, 1 <= maxDays n <= 31).
  { intros n. unfold maxDays.
    destruct (31 <? _) eqn:E1; [simpl; lia|].
    destruct (_ <? 1) eqn:E2; lia. }
  split; [|split; [exact R|]].
  - intros n. exists ((n - 8) / 8). split.
    + pose proof (Z.div_mod (n - 8) 8 ltac:(lia)).
      pose proof (Z.mod_pos_bound (n - 8) 8 ltac:(lia)). lia.
    + unfold maxDays.
      destruct (31 <? _) eqn:E1; [simpl; lia|].
      destruct (_ <? 1) eqn:E2; lia.
  - do 5 (split; [reflexivity|]).
    intros row1 rows. rewrite runDays_entries, length_map, length_seq.
    specialize (R (Z.of_nat (length row1))). lia.
Qed.

(** C6, as stated, fails: sixteen columns hold the eight identity columns
    and a single day block, not two. *)
Lemma maxDays_16_not_2 :
  ~ (maxDays 8 = 1 /\ maxDays 16 = 2 /\ maxDays 100 = 11 /\ maxDays 5 = 1).
Proof. intros (_ & H & _). discriminate H. Qed.

(* ===================================================================== *)
(** ** The cell normalizer *)
(* ===================================================================== *)



(* ===================================================================== *)
(** ** Aggregation within a day block *)
(* ===================================================================== *)

Lemma columnStep_classify header val t :
  columnStep header val t =
    match classify header with
    | BroughtForward => mkTally val (tReceived t) (tSold t) (tWaste t)
    | Received =>
        mkTally (broughtForwardSheet t) (max (tReceived t) (abs val)) (tSold t)
          (tWaste t)
    | Sold =>
        mkTally (broughtForwardSheet t) (tReceived t) (add (tSold t) (abs val))
          (tWaste t)
    | Waste =>
        mkTally (broughtForwardSheet t) (tReceived t) (tSold t)
          (add (tWaste t) (abs val))
    | Ignored => t
    end.
Proof.
  unfold columnStep, classify.
  repeat match goal with |- context [if ?b then _ else _] => destruct b end;
    reflexivity.
Qed.

Lemma last_cons {A} (x : A) l d : List.last (x :: l) d = List.last l x.
Proof.
  revert x d. induction l as [|y l IH]; intros x d; [reflexivity|].
  change (List.last (y :: l) d = List.last (y :: l) x). now rewrite !IH.
Qed.

Lemma foldl_columnStep (h : nat -> jsstring) (v : nat -> num) l : forall t,
  let cols := List.map (fun c => (classify (h c), v c)) l in
  foldl (fun t c => columnStep (h c) (v c) t) t l =
    mkTally
      (List.last (valuesOf BroughtForward cols) (broughtForwardSheet t))
      (foldl max (tReceived t) (List.map abs (valuesOf Received cols)))
      (foldl add (tSold t) (List.map abs (valuesOf Sold cols)))
      (foldl add (tWaste t) (List.map abs (valuesOf Waste cols))).
Proof.
  induction l as [|c l IH]; intros t; simpl.
  - now destruct t.
  - rewrite IH, columnStep_classify. unfold valuesOf. simpl.
    destruct (classify (h c)); simpl; try reflexivity.
    f_equal. symmetry. apply (last_cons (v c) _ (broughtForwardSheet t)).
Qed.

Lemma magnitude_abs x : isNaN x = false -> magnitude (abs x) = true.
Proof. destruct x; simpl; intros; try reflexivity; discriminate. Qed.

Lemma max_choice x y :
  magnitude x = true -> magnitude y = true -> max x y = x \/ max x y = y.
Proof.
  destruct x as [[]|[]| |[] mx ex], y as [[]|[]| |[] my ey]; simpl;
    try discriminate; intros _ _; auto;
    unfold max; destruct (SFltb _ _); auto.
Qed.

Lemma ge_refl x : magnitude x = true -> ge x x = true.
Proof.
  destruct x as [[]|[]| |[] mx ex]; simpl; try discriminate; intros _;
    try reflexivity.
  unfold ge, SFleb; simpl. now rewrite Z.compare_refl, Pos.compare_cont_refl.
Qed.

Lemma ge_trans x y z :
  magnitude x = true -> magnitude y = true -> magnitude z = true ->
  ge x y = true -> ge y z = true -> ge x z = true.
Proof.
  unfold ge, SFleb.
  destruct x as [[]|[]| |[] mx ex], y as [[]|[]| |[] my ey],
    z as [[]|[]| |[] mz ez]; simpl; try discriminate; intros _ _ _;
    try reflexivity; try (intros; assumption); try discriminate.
  change (Pos.compare_cont Eq mz my) with (mz ?= my)%positive.
  change (Pos.compare_cont Eq my mx) with (my ?= mx)%positive.
  change (Pos.compare_cont Eq mz mx) with (mz ?= mx)%positive.
  destruct (Z.compare_spec ey ex), (Z.compare_spec ez ey),
    (Z.compare_spec ez ex); try lia; try discriminate; try reflexivity;
    destruct (Pos.compare_spec my mx), (Pos.compare_spec mz my),
      (Pos.compare_spec mz mx); try lia; try discriminate; reflexivity.
Qed.

Lemma lt_false_ge x y :
  magnitude x = true -> magnitude y = true -> SFltb x y = false -> ge x y = true.
Proof.
  unfold ge, SFleb, SFltb.
  destruct x as [[]|[]| |[] mx ex], y as [[]|[]| |[] my ey]; simpl;
    try discriminate; intros _ _; try reflexivity; try discriminate.
  change (Pos.compare_cont Eq mx my) with (mx ?= my)%positive.
  change (Pos.compare_cont Eq my mx) with (my ?= mx)%positive.
  rewrite (Z.compare_antisym ex ey), (Pos.compare_antisym mx my).
  destruct (ex ?= ey); simpl; try discriminate; try reflexivity.
  destruct (mx ?= my)%positive; simpl; try discriminate; reflexivity.
Qed.

Lemma lt_true_ge x y :
  magnitude x = true -> magnitude y = true -> SFltb x y = true -> ge y x = true.
Proof.
  unfold ge, SFleb, SFltb.
  destruct x as [[]|[]| |[] mx ex], y as [[]|[]| |[] my ey]; simpl;
    try discriminate; intros _ _; try reflexivity; try discriminate.
  destruct (ex ?= ey); try discriminate; try reflexivity.
  destruct (Pos.compare_cont Eq mx my); try discriminate; reflexivity.
Qed.

Lemma max_bounds x y :
  magnitude x = true -> magnitude y = true ->
  magnitude (max x y) = true /\ ge (max x y) x = true /\ ge (max x y) y = true.
Proof.
  intros Hx Hy.
  destruct x as [[]|[]| |[] mx ex] eqn:Ex, y as [[]|[]| |[] my ey] eqn:Ey;
    try discriminate; try (repeat split; reflexivity);
    rewrite <- Ex, <- Ey; rewrite <- Ex in Hx; rewrite <- Ey in Hy;
    (assert (M : max x y = if SFltb x y then y else x) by (now subst));
    rewrite M; destruct (SFltb x y) eqn:L;
    auto using ge_refl, lt_false_ge, lt_true_ge.
Qed.

(** [foldl max] computes the greatest element: it is one of the numbers
    folded (or the start value) and is at least each of them. *)
Lemma foldl_max_greatest l : forall a,
  magnitude a = true -> Forall (fun v => magnitude v = true) l ->
  let r := foldl max a l in
  magnitude r = true /\ (r = a \/ r ∈ l) /\ ge r a = true
  /\ Forall (fun v => ge r v = true) l.
Proof.
  induction l as [|v l IH]; intros a Ha Hl; simpl.
  - repeat split; auto using ge_refl.
  - inversion Hl as [|? ? Hv Hl']; subst.
    destruct (max_bounds a v Ha Hv) as (Hm & Hga & Hgv).
    destruct (IH (max a v) Hm Hl') as (Hr & Hin & Hge & Hall).
    repeat split.
    + exact Hr.
    + destruct Hin as [E|Hin]; [|right; now apply list_elem_of_further].
      rewrite E. destruct (max_choice a v Ha Hv) as [E' | E']; rewrite E'.
      * now left.
      * right. apply list_elem_of_here.
    + apply (ge_trans _ (max a v)); assumption.
    + constructor; [apply (ge_trans _ (max a v)); assumption|exact Hall].
Qed.

Lemma extractBlock_spec row1 row start :
  let cols := blockColumns row1 row start in
  extractBlock row1 row start =
    mkTally (lastValue (valuesOf BroughtForward cols))
      (maxAbs (valuesOf Received cols))
      (sumAbs (valuesOf Sold cols)) (sumAbs (valuesOf Waste cols)).
Proof.
  unfold extractBlock, blockColumns.
  exact (foldl_columnStep (fun c => headerAt row1 (start + c))
           (fun c => cleanNumber (cell row (start + c))) (seq 0 8) tally0).
Qed.

Lemma valuesOf_not_NaN role row1 row start :
  Forall (fun v => isNaN v = false) (valuesOf role (blockColumns row1 row start)).
Proof.
  unfold valuesOf, blockColumns. generalize (seq 0 8).
  induction l as [|c l IH]; simpl; [constructor|].
  destruct (sameRole _ role); simpl; [constructor|]; auto using cleanNumber_not_NaN.
Qed.

Lemma maxAbs_greatest vs :
  Forall (fun v => isNaN v = false) vs ->
  (maxAbs vs = zero \/ maxAbs vs ∈ List.map abs vs)
  /\ Forall (fun v => ge (maxAbs vs) (abs v) = true) vs.
Proof.
  intros H. unfold maxAbs.
  assert (Hm : Forall (fun v => magnitude v = true) (List.map abs vs)).
  { induction H; simpl; constructor; auto using magnitude_abs. }
  destruct (foldl_max_greatest _ zero eq_refl Hm) as (_ & Hin & _ & Hall).
  split; [exact Hin|].
  clear -Hall. revert Hall. generalize (foldl max zero (List.map abs vs)).
  intros r. induction vs as [|v vs IH]; simpl; intros Hall; [constructor|].
  inversion Hall; subst. constructor; auto.
Qed.

(** Every record of a day comes from a product row of the sheet. *)
Lemma dayRecords_origin day row1 rows prev p :
  p ∈ dayRecords day row1 prev rows ->
  exists row prev', row ∈ rows /\ isProductRow row = true
                    /\ p = recordOf day row1 row prev'.
Proof.
  intros (ps1 & ps2 & E)%list_elem_of_split.
  destruct (dayRecords_split _ _ _ _ _ _ _ E) as (row & H1 & H2 & H3).
  eauto.
Qed.

(** C7. In a block of eight columns the received figure is the greatest of
    the absolute values of the columns classified as received (0 when
    there is none), sold and waste are the sums of the absolute values of
    their columns, added in column order, and the sheet's opening balance
    is the value of the last column classified as brought forward.  Each
    record carries these figures of its own row and day block.  On the
    scenario sheet the records are 10, 5, 3, 0, 12 on day 1 and
    12, 3, 3, 0, 12 on day 2. *)
Theorem block_aggregation :
  (forall row1 row start,
     let cols := blockColumns row1 row start in
     let t := extractBlock row1 row start in
     broughtForwardSheet t = lastValue (valuesOf BroughtForward cols)
     /\ tReceived t = maxAbs (valuesOf Received cols)
     /\ tSold t = sumAbs (valuesOf Sold cols)
     /\ tWaste t = sumAbs (valuesOf Waste cols)
     /\ (tReceived t = zero
         \/ tReceived t ∈ List.map abs (valuesOf Received cols))
     /\ Forall (fun v => ge (tReceived t) (abs v) = true)
          (valuesOf Received cols))
  /\ (forall data out D p,
        processData data = Some out -> D ∈ out -> p ∈ dayProducts D ->
        exists row1 row,
          head data = Some row1 /\ row ∈ tail data /\ isProductRow row = true
          /\ identity p = rowIdentity row
          /\ let t := extractBlock row1 row (8 + (dayNum D - 1) * 8)%nat in
             received p = tReceived t /\ sold p = tSold t
             /\ waste p = tWaste t)
  /\ summary (processData scenario) =
       Some [ (1%nat, true, [stocks [ofZ 10; ofZ 5; ofZ 3; zero; ofZ 12]]);
              (2%nat, true, [stocks [ofZ 12; ofZ 3; ofZ 3; zero; ofZ 12]]) ].
Proof.
  split; [|split].
  - intros row1 row start cols t. unfold t, cols.
    rewrite extractBlock_spec. simpl.
    destruct (maxAbs_greatest _ (valuesOf_not_NaN Received row1 row start)).
    repeat split; assumption.
  - intros data out D p Hout HD Hp.
    destruct (processData_entry _ _ _ Hout HD) as (row1 & rows & d & -> & _ & ->).
    simpl in Hp.
    apply dayRecords_origin in Hp as (row & prev & Hin & Hrow & ->).
    exists row1, row. repeat split; assumption.
  - vm_compute. reflexivity.
Qed.

(** The statement above at the first record of the scenario sheet. *)
Lemma block_aggregation_witness :
  exists row1 row,
    head scenario = Some row1 /\ row ∈ tail scenario
    /\ isProductRow row = true
    /\ identity (recordAt scenario 0 0) = rowIdentity row
    /\ let t := extractBlock row1 row
                  (8 + (dayNum (entryAt scenario 0) - 1) * 8)%nat in
       received (recordAt scenario 0 0) = tReceived t
       /\ sold (recordAt scenario 0 0) = tSold t
       /\ waste (recordAt scenario 0 0) = tWaste t.
Proof.
  apply (proj1 (proj2 block_aggregation) scenario
           (default [] (processData scenario)) (entryAt scenario 0));
    by_compute.
Defined.

(* ===================================================================== *)
(** ** Which rows are product rows *)
(* ===================================================================== *)

Lemma blank_false row i :
  blank row i = false <-> exists s, row !! i = Some s /\ trim s <> [].
Proof.
  unfold blank. destruct (row !! i) as [s|]; split.
  - intros [H1 H2]%orb_false_iff. exists s. split; [reflexivity|].
    intros E. apply streq_true in E. congruence.
  - intros (s' & [= <-] & Hs). apply orb_false_iff. split.
    + apply not_true_is_false. intros E%streq_true. subst. now apply Hs.
    + apply not_true_is_false. now intros E%streq_true.
  - discriminate.
  - intros (s & [=] & _).
Qed.

Lemma isProductRow_spec row :
  isProductRow row = true <->
  exists c n, row !! 1%nat = Some c /\ row !! 3%nat = Some n
              /\ trim c <> [] /\ trim n <> [].
Proof.
  unfold isProductRow. rewrite negb_true_iff, orb_false_iff, !blank_false.
  split.
  - intros [(c & Hc & Hc') (n & Hn & Hn')]. exists c, n. auto.
  - intros (c & n & Hc & Hn & Hc' & Hn'). split; eauto.
Qed.

Lemma dayRecords_skip day row1 rows1 bad rows2 :
  isProductRow bad = false ->
  forall prev,
    dayRecords day row1 prev (rows1 ++ bad :: rows2) =
    dayRecords day row1 prev (rows1 ++ rows2).
Proof.
  intros Hbad. induction rows1 as [|row rest IH]; intros prev; simpl.
  - now rewrite Hbad.
  - destruct (isProductRow row); [f_equal|]; apply IH.
Qed.

Lemma runDays_skip row1 rows1 bad rows2 n :
  isProductRow bad = false ->
  runDays row1 (rows1 ++ bad :: rows2) n = runDays row1 (rows1 ++ rows2) n.
Proof.
  intros Hbad. induction n as [|n IH]; [reflexivity|].
  rewrite !runDays_S, !dayStep_spec, IH. simpl.
  now rewrite !dayRecords_skip by exact Hbad.
Qed.

(** C4, as stated, fails: the row of the sheet below has a category and a
    name but an empty code; the test of the source does not look at the
    code and a record is emitted for the row. *)
Lemma row_without_code_extracted :
  ~ (forall data out D,
       processData data = Some out -> D ∈ out ->
       List.map identity (dayProducts D) =
         List.map rowIdentity (List.filter hasCategoryCodeName (tail data))).
Proof.
  intros H.
  specialize (H noCodeSheet _ (dayEntry (headerRow 1) (tail noCodeSheet) 1)
                eq_refl).
  assert (Hin : dayEntry (headerRow 1) (tail noCodeSheet) 1
                ∈ dayFilter (globalStoreData (runDays (headerRow 1)
                    (tail noCodeSheet)
                    (Z.to_nat (maxDays (Z.of_nat (length (headerRow 1))))))))
    by (vm_compute; apply list_elem_of_here).
  specialize (H Hin). vm_compute in H. discriminate H.
Qed.

(** C4, as the code has it. A row is a product row exactly when its
    category (column 1) and its name (column 3) are present and non-empty
    after trimming; the code is not tested.  The records of every day of
    the result are those of the product rows, in row order.  A row with an
    empty name is no product row, and it can be removed from the sheet
    without changing the result as long as another row stays below the
    header row; when it is the only row below the header row, the result
    with it has no record on any day, and without it there is no result,
    the sheet being too short. *)
Theorem product_rows_only :
  (forall row,
     isProductRow row = true <->
     exists c n, row !! 1%nat = Some c /\ row !! 3%nat = Some n
                 /\ trim c <> [] /\ trim n <> [])
  /\ (forall data out D,
        processData data = Some out -> D ∈ out ->
        List.map identity (dayProducts D) =
          List.map rowIdentity (List.filter isProductRow (tail data)))
  /\ (forall row1 rows1 bad rows2,
        blank bad 3 = true -> rows1 ++ rows2 <> [] ->
        processData (row1 :: rows1 ++ bad :: rows2) =
          processData (row1 :: rows1 ++ rows2))
  /\ (forall row1 bad,
        blank bad 3 = true ->
        processData [row1] = None
        /\ exists out, processData [row1; bad] = Some out
             /\ forall D, D ∈ out -> dayProducts D = []).
Proof.
  assert (Records : forall data out D,
            processData data = Some out -> D ∈ out ->
            List.map identity (dayProducts D) =
              List.map rowIdentity (List.filter isProductRow (tail data))).
  { intros data out D Hout HD.
    destruct (processData_entry _ _ _ Hout HD) as (row1 & rows & d & -> & _ & ->).
    apply dayRecords_identity. }
  split; [exact isProductRow_spec|split; [exact Records|split]].
  2:{ intros row1 bad Hbad. split; [reflexivity|].
      assert (Hrow : isProductRow bad = false).
      { unfold isProductRow. rewrite Hbad, orb_true_r. reflexivity. }
      eexists. split; [reflexivity|]. intros D HD.
      pose proof (Records [row1; bad] _ D eq_refl HD) as E.
      simpl in E. rewrite Hrow in E.
      now destruct (dayProducts D). }
  - intros row1 rows1 bad rows2 Hbad Hne.
    assert (Hrow : isProductRow bad = false).
    { unfold isProductRow. rewrite Hbad, orb_true_r. reflexivity. }
    unfold processData.
    replace (length (row1 :: rows1 ++ bad :: rows2) <? 2)%nat with false.
    2:{ symmetry. apply Nat.ltb_ge. simpl. rewrite length_app. simpl. lia. }
    replace (length (row1 :: rows1 ++ rows2) <? 2)%nat with false.
    2:{ symmetry. apply Nat.ltb_ge. simpl.
        destruct (rows1 ++ rows2); [congruence|simpl; lia]. }
    now rewrite runDays_skip by exact Hrow.
Qed.

(** The statement above on the sheet whose only row has no code: the row
    is a product row and its record is emitted. *)
Lemma product_rows_only_witness :
  List.map identity (dayProducts (entryAt noCodeSheet 0)) =
    List.map rowIdentity (List.filter isProductRow (tail noCodeSheet)).
Proof.
  apply (proj1 (proj2 product_rows_only) noCodeSheet
           (default [] (processData noCodeSheet))); by_compute.
Defined.

(* ===================================================================== *)
(** ** The opening stock of day 1 *)
(* ===================================================================== *)

(** C3, as stated, fails.  A sheet-stated opening balance of -5 is
    present and nonzero, yet the record opens at 0: the source seeds only
    from a value greater than zero.  A row whose code is [constructor],
    which the empty carry map inherits as every object does, is not seeded
    from its cell and does not open at a number.  And on the sheet with two
    rows of code P1, the first of which sells the 10 it opens with, both
    rows are seeded on day 1 (10, then 7): the test of the source is that
    the carried value is falsy, which a carried 0 is. *)
Lemma opening_seed_counterexample :
  ~ (forall row1 st row,
       isProductRow row = true ->
       previousDayRemain st !! rowCode row = None ->
       exists p,
         products (rowStep 1 row1 st row) = products st ++ [p]
         /\ let bfs := broughtForwardSheet (extractBlock row1 row 8) in
            broughtForward p = Stock (if strictNe bfs zero then bfs else zero))
  /\ ~ (forall row1 st row,
          isProductRow row = true ->
          previousDayRemain st !! rowCode row = None ->
          exists p,
            products (rowStep 1 row1 st row) = products st ++ [p]
            /\ exists n, broughtForward p = Stock n)
  /\ summary (processData reseededSheet) =
       Some [ (1%nat, true, [ stocks [ofZ 10; zero; ofZ 10; zero; zero];
                              stocks [ofZ 7; zero; zero; zero; ofZ 7] ]) ].
Proof.
  split; [|split; [|vm_compute; reflexivity]]; intros H.
  - destruct (H (headerRow 1) (mkRowLoop ∅ [] false)
                (nth 1 negativeOpeningSheet []) eq_refl (lookup_empty _))
      as (p & E & Hp).
    vm_compute in E. injection E as <-. vm_compute in Hp. discriminate Hp.
  - destruct (H (headerRow 1) (mkRowLoop ∅ [] false)
                (nth 1 inheritedCodeSheet []) eq_refl (lookup_empty _))
      as (p & E & n & Hp).
    vm_compute in E. injection E as <-. vm_compute in Hp. discriminate Hp.
Qed.

(** C3, as the code has it. A product row met on day 1 with no entry for
    its code in the carry map, the code not being the name of a property
    objects inherit, opens at the sheet-stated balance when that balance
    is greater than zero, and at 0 otherwise; so does, in the result, the
    first row of each such code on day 1.  The seed belongs to day 1: on
    any other day, and on day 1 over a carried value that is neither zero
    nor NaN, the record opens at what the carry map gives. *)
Theorem opening_stock_seed :
  (forall row1 st row,
     isProductRow row = true ->
     previousDayRemain st !! rowCode row = None ->
     inheritedKey (rowCode row) = false ->
     exists p,
       products (rowStep 1 row1 st row) = products st ++ [p]
       /\ let bfs := broughtForwardSheet (extractBlock row1 row 8) in
          broughtForward p = Stock (if gt bfs zero then bfs else zero))
  /\ (forall day row1 st row,
        isProductRow row = true ->
        day <> 1%nat \/ noCarry (previousDayRemain st) (rowCode row) = false ->
        exists p,
          products (rowStep day row1 st row) = products st ++ [p]
          /\ broughtForward p = carryOrZero (previousDayRemain st) (rowCode row))
  /\ (forall data out D ps1 b ps2,
        processData data = Some out -> D ∈ out -> dayNum D = 1%nat ->
        dayProducts D = ps1 ++ b :: ps2 ->
        Forall (fun p => code p <> code b) ps1 ->
        inheritedKey (code b) = false ->
        exists row1 row,
          head data = Some row1 /\ row ∈ tail data /\ isProductRow row = true
          /\ identity b = rowIdentity row
          /\ let bfs := broughtForwardSheet (extractBlock row1 row 8) in
             broughtForward b = Stock (if gt bfs zero then bfs else zero)).
Proof.
  assert (Seed : forall row1 row prev,
            prev !! rowCode row = None -> inheritedKey (rowCode row) = false ->
            broughtForward (recordOf 1 row1 row prev)
            = Stock (if gt (broughtForwardSheet (extractBlock row1 row 8)) zero
                     then broughtForwardSheet (extractBlock row1 row 8)
                     else zero)).
  { intros row1 row prev Hl Hk.
    rewrite broughtForward_recordOf. unfold tallyOf.
    rewrite (noCarry_none _ _ Hl), Hk, (carryOrZero_none _ _ Hl Hk).
    pose proof (not_inherited_not_proto _ Hk) as Hp.
    replace (streq (rowCode row) protoKey) with false
      by (symmetry; now apply bool_decide_eq_false).
    simpl. now destruct (gt _ zero). }
  split; [|split].
  - intros row1 st row Hrow Hl Hk. eexists. split.
    + rewrite rowStep_product by exact Hrow. reflexivity.
    + now apply Seed.
  - intros day row1 st row Hrow Hcase. eexists. split.
    + rewrite rowStep_product by exact Hrow. reflexivity.
    + rewrite broughtForward_recordOf.
      destruct Hcase as [Hday | Hcarry].
      * now replace (day =? 1)%nat with false
          by (symmetry; now apply Nat.eqb_neq).
      * now rewrite Hcarry, andb_false_r.
  - intros data out D ps1 b ps2 Hout HD Hday Hps Hfirst Hk.
    destruct (processData_entry _ _ _ Hout HD) as (row1 & rows & d & -> & _ & ->).
    simpl in Hday, Hps. subst d.
    destruct (dayRecords_split _ _ _ _ _ _ _ Hps) as (row & Hrow & Hin & Hb).
    exists row1, row. repeat split; try assumption.
    + now rewrite Hb.
    + assert (Hc : rowCode row = code b) by now rewrite Hb.
      assert (Hl : foldl pushCarry (carryAfter row1 rows (1 - 1)) ps1
                     !! rowCode row = None).
      { rewrite Hc, lookup_pushCarry_other by exact Hfirst.
        apply lookup_empty. }
      rewrite Hb. apply Seed; [exact Hl|now rewrite Hc].
Qed.

(** The statement above at the first record of the scenario sheet, which
    opens day 1 at the 10 its cell states. *)
Lemma opening_stock_seed_witness :
  exists row1 row,
    head scenario = Some row1 /\ row ∈ tail scenario
    /\ isProductRow row = true
    /\ identity (recordAt scenario 0 0) = rowIdentity row
    /\ let bfs := broughtForwardSheet (extractBlock row1 row 8) in
       broughtForward (recordAt scenario 0 0) =
         Stock (if gt bfs zero then bfs else zero).
Proof.
  apply (proj2 (proj2 opening_stock_seed) scenario
           (default [] (processData scenario))
           (entryAt scenario 0) [] (recordAt scenario 0 0) []); by_compute.
Defined.

(* ===================================================================== *)
(** ** The carry-forward chain *)
(* ===================================================================== *)

Lemma dayRecords_codeCount c day row1 rows : forall prev,
  codeCount c (dayRecords day row1 prev rows) = occurrences c rows.
Proof.
  unfold codeCount, occurrences.
  induction rows as [|row rest IH]; intros prev; simpl; [reflexivity|].
  destruct (isProductRow row); simpl; [|apply IH].
  destruct (streq (rowCode row) c); simpl; [f_equal|]; apply IH.
Qed.

Lemma codeCount_app c ps qs :
  codeCount c (ps ++ qs) = (codeCount c ps + codeCount c qs)%nat.
Proof. unfold codeCount. now rewrite List.filter_app, length_app. Qed.

Lemma codeCount_zero c ps :
  codeCount c ps = 0%nat -> Forall (fun p => code p <> c) ps.
Proof.
  unfold codeCount. induction ps as [|p ps IH]; simpl; [constructor|].
  destruct (streq (code p) c) eqn:E; simpl; [discriminate|].
  intros H. constructor; [|auto].
  intros Hc. apply streq_true in Hc. congruence.
Qed.

(** When a code occurs once, the records around its record have other
    codes. *)
Lemma codeCount_one c ps1 a ps2 :
  code a = c -> codeCount c (ps1 ++ a :: ps2) = 1%nat ->
  Forall (fun p => code p <> c) ps1 /\ Forall (fun p => code p <> c) ps2.
Proof.
  intros Ha. rewrite codeCount_app.
  change (a :: ps2) with ([a] ++ ps2). rewrite codeCount_app.
  assert (E : codeCount c [a] = 1%nat).
  { unfold codeCount. simpl.
    now rewrite (proj2 (streq_true (code a) c) Ha). }
  rewrite E. intros H. split; apply codeCount_zero; lia.
Qed.

(** Within a day: the opening stock of a record whose code was last used
    by the record [a] of the same day. *)
Lemma sameDay_chain day row1 rows prev ps1 a mid b ps2 :
  dayRecords day row1 prev rows = ps1 ++ a :: mid ++ b :: ps2 ->
  code b = code a -> Forall (fun p => code p <> code a) mid ->
  code a <> protoKey ->
  exists row,
    List.filter isProductRow rows !! length (ps1 ++ a :: mid) = Some row
    /\ let bfs := broughtForwardSheet (tallyOf day row1 row) in
       broughtForward b =
         Stock (if (day =? 1)%nat && negb (truthy (remain a)) && gt bfs zero
                then bfs else orZero (remain a)).
Proof.
  intros E Hc Hmid Hp.
  change (ps1 ++ a :: mid ++ b :: ps2) with (ps1 ++ (a :: mid) ++ b :: ps2) in E.
  rewrite app_assoc in E.
  destruct (dayRecords_split_at _ _ _ _ _ _ _ E) as (row & Hrow & Hb).
  exists row. split; [exact Hrow|].
  assert (Hr : rowCode row = code a) by (rewrite <- Hc, Hb; reflexivity).
  assert (Hl : foldl pushCarry prev (ps1 ++ a :: mid) !! rowCode row
               = Some (remain a)).
  { rewrite Hr. now apply lookup_pushCarry_last. }
  cbv zeta. rewrite Hb, broughtForward_recordOf.
  rewrite (noCarry_lookup _ _ _ Hl), (carryOrZero_lookup _ _ _ Hl).
  replace (streq (rowCode row) protoKey) with false
    by (symmetry; apply bool_decide_eq_false; congruence).
  rewrite andb_true_r. now destruct (_ && _ && _).
Qed.

(** From a day to the next: the opening stock of the first record of a
    code is what the last record of that code left the day before. *)
Lemma nextDay_chain row1 rows d ps1 a ps2 qs1 b qs2 :
  (1 <= d)%nat ->
  dayProducts (dayEntry row1 rows d) = ps1 ++ a :: ps2 ->
  Forall (fun p => code p <> code a) ps2 ->
  dayProducts (dayEntry row1 rows (S d)) = qs1 ++ b :: qs2 ->
  Forall (fun p => code p <> code a) qs1 ->
  code b = code a ->
  code a <> protoKey ->
  broughtForward b = Stock (orZero (remain a)).
Proof.
  intros Hd E1 H2 E2 H1 Hc Hp.
  assert (Hcarry : carryAfter row1 rows d !! code a = Some (remain a)).
  { replace d with (S (d - 1)) at 1 by lia.
    rewrite carryAfter_S. replace (S (d - 1)) with d by lia.
    rewrite E1. now apply lookup_pushCarry_last. }
  simpl in E2. replace (d - 0)%nat with d in E2 by lia.
  destruct (dayRecords_split _ _ _ _ _ _ _ E2) as (row & Hrow & Hin & Hb).
  assert (Hr : rowCode row = code a) by (rewrite <- Hc, Hb; reflexivity).
  assert (Hl : foldl pushCarry (carryAfter row1 rows d) qs1 !! rowCode row
               = Some (remain a)).
  { rewrite Hr, lookup_pushCarry_other by exact H1. exact Hcarry. }
  rewrite Hb, broughtForward_recordOf.
  replace (S d =? 1)%nat with false by (symmetry; apply Nat.eqb_neq; lia).
  simpl. now apply carryOrZero_lookup.
Qed.

Lemma orZero_strictEq x : isNaN x = false -> strictEq (orZero x) x = true.
Proof.
  destruct x as [[]|[]| |[] m e]; try discriminate; intros _; try reflexivity;
    unfold orZero, strictEq, SFeqb; simpl;
    now rewrite Z.compare_refl, Pos.compare_cont_refl.
Qed.

(** C2, as stated, fails.  With two rows of code P1, the first record of
    day 1 closes at 5 while the first record of day 2 opens at 7, the
    closing stock of the second row.  With a single row whose received
    and sold cells both spell Infinity, day 1 closes at NaN and day 2 opens
    at 0.  And with a single row of code [__proto__], whose closing stock
    the carry map never holds, day 2 opens at no number at all. *)
Lemma continuity_counterexample :
  ~ (forall data out D1 D2 p1 p2,
       processData data = Some out -> D1 ∈ out -> D2 ∈ out ->
       dayNum D2 = S (dayNum D1) ->
       p1 ∈ dayProducts D1 -> p2 ∈ dayProducts D2 -> code p2 = code p1 ->
       broughtForward p2 = Stock (remain p1))
  /\ ~ (forall data out D1 D2 p1 p2,
          processData data = Some out -> D1 ∈ out -> D2 ∈ out ->
          dayNum D2 = S (dayNum D1) ->
          p1 ∈ dayProducts D1 -> p2 ∈ dayProducts D2 -> code p2 = code p1 ->
          occurrences (code p1) (tail data) = 1%nat ->
          broughtForward p2 = Stock (remain p1))
  /\ ~ (forall data out D1 D2 p1 p2,
          processData data = Some out -> D1 ∈ out -> D2 ∈ out ->
          dayNum D2 = S (dayNum D1) ->
          p1 ∈ dayProducts D1 -> p2 ∈ dayProducts D2 -> code p2 = code p1 ->
          occurrences (code p1) (tail data) = 1%nat ->
          exists b, broughtForward p2 = Stock b).
Proof.
  split; [|split]; intros H.
  - assert (E : broughtForward (recordAt sharedCodeSheet 1 0)
                = Stock (remain (recordAt sharedCodeSheet 0 0))).
    { apply (H sharedCodeSheet (default [] (processData sharedCodeSheet))
               (entryAt sharedCodeSheet 0) (entryAt sharedCodeSheet 1));
        by_compute. }
    vm_compute in E. discriminate E.
  - assert (E : broughtForward (recordAt infiniteSheet 1 0)
                = Stock (remain (recordAt infiniteSheet 0 0))).
    { apply (H infiniteSheet (default [] (processData infiniteSheet))
               (entryAt infiniteSheet 0) (entryAt infiniteSheet 1));
        by_compute. }
    vm_compute in E. discriminate E.
  - assert (E : exists b, broughtForward (recordAt protoCodeSheet 1 0) = Stock b).
    { apply (H protoCodeSheet (default [] (processData protoCodeSheet))
               (entryAt protoCodeSheet 0) (entryAt protoCodeSheet 1)
               (recordAt protoCodeSheet 0 0));
        by_compute. }
    destruct E as [b E]. vm_compute in E. discriminate E.
Qed.

(** C2, as the code has it. For a product code other than [__proto__]
    carried by exactly one product row, the record of day d opens at what
    the record of day d-1 closed at, read as the source reads it
    ([x || 0]): the closing stock itself when it is neither zero nor NaN,
    and 0 otherwise.  So the opening stock is a number, and opening and
    closing stock are equal numbers ([===]) unless the closing stock is
    NaN. *)
Theorem carry_forward_continuity data out D1 D2 p1 p2 :
  processData data = Some out -> D1 ∈ out -> D2 ∈ out ->
  dayNum D2 = S (dayNum D1) ->
  p1 ∈ dayProducts D1 -> p2 ∈ dayProducts D2 -> code p2 = code p1 ->
  occurrences (code p1) (tail data) = 1%nat ->
  code p1 <> protoKey ->
  broughtForward p2 = Stock (orZero (remain p1))
  /\ (isNaN (remain p1) = false ->
      strictEq (orZero (remain p1)) (remain p1) = true).
Proof.
  intros Hout H1 H2 Hday Hp1 Hp2 Hc Hocc Hproto.
  destruct (processData_entry _ _ _ Hout H1) as (row1 & rows & d1 & E & Hd1 & ->).
  destruct (processData_entry _ _ _ Hout H2) as (row1' & rows' & d2 & E' & _ & ->).
  rewrite E in E'. injection E' as <- <-. subst data.
  simpl in Hday. subst d2. simpl tail in Hocc.
  apply list_elem_of_split in Hp1 as (ps1 & ps2 & E1).
  apply list_elem_of_split in Hp2 as (qs1 & qs2 & E2).
  assert (C1 : codeCount (code p1) (ps1 ++ p1 :: ps2) = 1%nat).
  { rewrite <- E1. simpl. now rewrite dayRecords_codeCount. }
  assert (C2 : codeCount (code p1) (qs1 ++ p2 :: qs2) = 1%nat).
  { rewrite <- E2. simpl. now rewrite dayRecords_codeCount. }
  destruct (codeCount_one _ _ _ _ eq_refl C1) as [_ F2].
  destruct (codeCount_one _ _ _ _ Hc C2) as [F1 _].
  assert (B : broughtForward p2 = Stock (orZero (remain p1)))
    by (eapply nextDay_chain; eauto).
  split; [exact B|]. intros Hn. now apply orZero_strictEq.
Qed.

(** The statement above on the scenario sheet. *)
Lemma carry_forward_continuity_witness :
  broughtForward (recordAt scenario 1 0)
  = Stock (orZero (remain (recordAt scenario 0 0)))
  /\ (isNaN (remain (recordAt scenario 0 0)) = false ->
      strictEq (orZero (remain (recordAt scenario 0 0)))
        (remain (recordAt scenario 0 0)) = true).
Proof.
  apply (carry_forward_continuity scenario (default [] (processData scenario))
           (entryAt scenario 0) (entryAt scenario 1)); by_compute.
Defined.

(** C10, as stated, fails.  On day 1, of the two rows of code P1 the first
    closes at 0, and the second opens at the 7 its own cell states, not at
    that 0.  And of two rows of code [__proto__], whose closing stock the
    carry map never holds, the second opens at no number at all, as does
    the row of that code on the next day. *)
Lemma shared_code_counterexample :
  ~ (forall data out D ps1 a mid b ps2,
       processData data = Some out -> D ∈ out ->
       dayProducts D = ps1 ++ a :: mid ++ b :: ps2 ->
       code b = code a -> Forall (fun p => code p <> code a) mid ->
       broughtForward b = Stock (remain a))
  /\ ~ (forall data out D ps1 a mid b ps2,
          processData data = Some out -> D ∈ out ->
          dayProducts D = ps1 ++ a :: mid ++ b :: ps2 ->
          code b = code a -> Forall (fun p => code p <> code a) mid ->
          exists n, broughtForward b = Stock n)
  /\ ~ (forall data out D1 D2 ps1 a ps2 qs1 b qs2,
          processData data = Some out -> D1 ∈ out -> D2 ∈ out ->
          dayNum D2 = S (dayNum D1) ->
          dayProducts D1 = ps1 ++ a :: ps2 ->
          Forall (fun p => code p <> code a) ps2 ->
          dayProducts D2 = qs1 ++ b :: qs2 ->
          Forall (fun p => code p <> code a) qs1 ->
          code b = code a ->
          exists n, broughtForward b = Stock n).
Proof.
  split; [|split]; intros H.
  - assert (E : broughtForward (recordAt reseededSheet 0 1)
                = Stock (remain (recordAt reseededSheet 0 0))).
    { apply (H reseededSheet (default [] (processData reseededSheet))
               (entryAt reseededSheet 0) [] _ [] _ []); by_compute. }
    vm_compute in E. discriminate E.
  - assert (E : exists n, broughtForward (recordAt protoPairSheet 0 1) = Stock n).
    { apply (H protoPairSheet (default [] (processData protoPairSheet))
               (entryAt protoPairSheet 0) [] (recordAt protoPairSheet 0 0) []
               (recordAt protoPairSheet 0 1) []); by_compute. }
    destruct E as [n E]. vm_compute in E. discriminate E.
  - assert (E : exists n, broughtForward (recordAt protoCodeSheet 1 0) = Stock n).
    { apply (H protoCodeSheet (default [] (processData protoCodeSheet))
               (entryAt protoCodeSheet 0) (entryAt protoCodeSheet 1)
               [] (recordAt protoCodeSheet 0 0) []
               [] (recordAt protoCodeSheet 1 0) []); by_compute. }
    destruct E as [n E]. vm_compute in E. discriminate E.
Qed.

(** C10, as the code has it. The carry map is read and written once per
    product row, in row order; a code other than [__proto__] is held by
    it.  Within a day, a row whose code was last used by an earlier row of
    that day opens at the closing stock that row has just computed, read
    with [x || 0] (a NaN reads as 0); the one exception is on day 1, when
    that closing stock is zero or NaN and the opening-balance cell of the
    later row holds a positive number: the row then opens at its own cell.
    From a day to the next, the first row of a code opens at the closing
    stock, read with [x || 0], of the last row of that code the day
    before.  On the sheet with two rows of code P1 receiving 5 and 2 the
    records of day 1 are 0,5,0,0,5 and 5,2,0,0,7 and both rows open day 2
    at 7. *)
Theorem carry_chain_per_row :
  (forall data out D ps1 a mid b ps2,
     processData data = Some out -> D ∈ out ->
     dayProducts D = ps1 ++ a :: mid ++ b :: ps2 ->
     code b = code a -> Forall (fun p => code p <> code a) mid ->
     code a <> protoKey ->
     exists row,
       List.filter isProductRow (tail data) !! length (ps1 ++ a :: mid)
         = Some row
       /\ let bfs := broughtForwardSheet (tallyOf (dayNum D) (hd [] data) row) in
          broughtForward b =
            Stock (if (dayNum D =? 1)%nat && negb (truthy (remain a))
                      && gt bfs zero
                   then bfs else orZero (remain a)))
  /\ (forall data out D1 D2 ps1 a ps2 qs1 b qs2,
        processData data = Some out -> D1 ∈ out -> D2 ∈ out ->
        dayNum D2 = S (dayNum D1) ->
        dayProducts D1 = ps1 ++ a :: ps2 ->
        Forall (fun p => code p <> code a) ps2 ->
        dayProducts D2 = qs1 ++ b :: qs2 ->
        Forall (fun p => code p <> code a) qs1 ->
        code b = code a ->
        code a <> protoKey ->
        broughtForward b = Stock (orZero (remain a)))
  /\ summary (processData sharedCodeSheet) =
       Some [ (1%nat, true, [ stocks [zero; ofZ 5; zero; zero; ofZ 5];
                              stocks [ofZ 5; ofZ 2; zero; zero; ofZ 7] ]);
              (2%nat, true, [ stocks [ofZ 7; zero; zero; zero; ofZ 7];
                              stocks [ofZ 7; zero; zero; zero; ofZ 7] ]) ].
Proof.
  split; [|split].
  - intros data out D ps1 a mid b ps2 Hout HD Hps Hc Hmid Hproto.
    destruct (processData_entry _ _ _ Hout HD) as (row1 & rows & d & -> & _ & ->).
    simpl in Hps. simpl dayNum. simpl tail. simpl hd.
    exact (sameDay_chain _ _ _ _ _ _ _ _ _ Hps Hc Hmid Hproto).
  - intros data out D1 D2 ps1 a ps2 qs1 b qs2 Hout H1 H2 Hday E1 F2 E2 F1 Hc Hproto.
    destruct (processData_entry _ _ _ Hout H1) as (row1 & rows & d1 & E & Hd1 & ->).
    destruct (processData_entry _ _ _ Hout H2) as (row1' & rows' & d2 & E' & _ & ->).
    rewrite E in E'. injection E' as <- <-.
    simpl in Hday. subst d2.
    eapply nextDay_chain; eauto.
  - vm_compute. reflexivity.
Qed.

(** The statement above on three sheets: with two rows of code P1
    receiving 5 and 2, the second row of day 1 opens at the closing stock
    of the first; with two rows of code P1 of which the first sells all it
    has, the second row of day 1 opens at the 7 of its own cell; and the
    first row of day 2 opens at the closing stock of the second row of
    day 1. *)
Lemma carry_chain_per_row_witness :
  broughtForward (recordAt sharedCodeSheet 0 1)
    = Stock (remain (recordAt sharedCodeSheet 0 0))
  /\ broughtForward (recordAt reseededSheet 0 1) = Stock (ofZ 7)
  /\ broughtForward (recordAt sharedCodeSheet 1 0)
     = Stock (orZero (remain (recordAt sharedCodeSheet 0 1))).
Proof.
  split; [|split].
  - destruct (proj1 carry_chain_per_row sharedCodeSheet
                (default [] (processData sharedCodeSheet))
                (entryAt sharedCodeSheet 0) [] (recordAt sharedCodeSheet 0 0) []
                (recordAt sharedCodeSheet 0 1) []) as (row & Hrow & Hbf);
      [by_compute ..|].
    vm_compute in Hrow. injection Hrow as <-.
    vm_compute in Hbf. vm_compute. exact Hbf.
  - destruct (proj1 carry_chain_per_row reseededSheet
                (default [] (processData reseededSheet))
                (entryAt reseededSheet 0) [] (recordAt reseededSheet 0 0) []
                (recordAt reseededSheet 0 1) []) as (row & Hrow & Hbf);
      [by_compute ..|].
    vm_compute in Hrow. injection Hrow as <-.
    vm_compute in Hbf. vm_compute. exact Hbf.
  - apply (proj1 (proj2 carry_chain_per_row) sharedCodeSheet
             (default [] (processData sharedCodeSheet))
             (entryAt sharedCodeSheet 0) (entryAt sharedCodeSheet 1)
             [recordAt sharedCodeSheet 0 0] (recordAt sharedCodeSheet 0 1) []
             [] (recordAt sharedCodeSheet 1 0) [recordAt sharedCodeSheet 1 1]);
      by_compute.
Defined.

(* ===================================================================== *)
(** ** The day filter *)
(* ===================================================================== *)

Lemma filter_nil_existsb {A} (f : A -> bool) l :
  (0 <? length (List.filter f l))%nat = existsb f l.
Proof.
  induction l as [|x l IH]; simpl; [reflexivity|].
  destruct (f x); simpl; [reflexivity|exact IH].
Qed.

(** C5 on the code. The filter keeps exactly the days with activity,
    wherever they are, unless no day has any, in which case every day is
    kept.  Flags true, false, false leave day 1 and flags false, false
    leave both days, as the claim says; but flags false, true, false, true
    leave days 2 and 4: the inactive days 1 and 3, each followed by a day
    with activity, are removed too.  The sheet whose single product is
    first delivered on day 2 produces exactly that. *)
Theorem dayFilter_keeps_active_days :
  (forall days,
     dayFilter days =
       if existsb hasData days then List.filter hasData days else days)
  /\ List.map dayNum
       (dayFilter [mkDayData 1 true []; mkDayData 2 false []; mkDayData 3 false []])
     = [1%nat]
  /\ List.map dayNum (dayFilter [mkDayData 1 false []; mkDayData 2 false []])
     = [1%nat; 2%nat]
  /\ List.map dayNum
       (dayFilter [mkDayData 1 false []; mkDayData 2 true [];
                   mkDayData 3 false []; mkDayData 4 true []])
     = [2%nat; 4%nat]
  /\ List.map (fun D => (dayNum D, hasData D))
       (globalStoreData (runDays (headerRow 4) (tail lateStartSheet) 4))
     = [(1%nat, false); (2%nat, true); (3%nat, false); (4%nat, true)]
  /\ summary (processData lateStartSheet) =
       Some [ (2%nat, true, [stocks [zero; ofZ 5; ofZ 5; zero; zero]]);
              (4%nat, true, [stocks [zero; ofZ 2; zero; zero; ofZ 2]]) ].
Proof.
  split.
  - intros days. unfold dayFilter. now rewrite filter_nil_existsb.
  - repeat split; vm_compute; reflexivity.
Qed.

(* ===================================================================== *)
(** ** Shape of the result *)
(* ===================================================================== *)

Lemma magnitude_add x y :
  magnitude x = true -> magnitude y = true -> magnitude (add x y) = true.
Proof.
  unfold add.
  destruct x as [[]|[]| |[] mx ex], y as [[]|[]| |[] my ey]; simpl;
    try discriminate; intros _ _; try reflexivity.
  pose proof (binary_round_sign false
    (fst (shl_align mx ex (Z.min ex ey)) + fst (shl_align my ey (Z.min ex ey)))
    (Z.min ex ey)) as H.
  destruct (binary_round _ _ _ _ _); subst; simpl; tauto.
Qed.

Lemma magnitude_zero_eq x :
  magnitude x = true -> strictEq x zero = true -> x = zero.
Proof.
  destruct x as [[]|[]| |[] mx ex]; simpl; try discriminate; reflexivity.
Qed.

Lemma columnStep_magnitude header val t :
  isNaN val = false ->
  magnitude (tReceived t) = true -> magnitude (tSold t) = true ->
  magnitude (tWaste t) = true ->
  let t' := columnStep header val t in
  magnitude (tReceived t') = true /\ magnitude (tSold t') = true
  /\ magnitude (tWaste t') = true.
Proof.
  intros Hv Hr Hs Hw. unfold columnStep.
  pose proof (magnitude_abs val Hv) as Ha.
  repeat match goal with |- context [if ?b then _ else _] => destruct b end;
    simpl; repeat split; auto using magnitude_add;
    now apply max_bounds.
Qed.

(** The movements of a block are magnitudes: not NaN, not negative, and
    zero only as the positive zero. *)
Lemma extractBlock_magnitude row1 row start :
  let t := extractBlock row1 row start in
  magnitude (tReceived t) = true /\ magnitude (tSold t) = true
  /\ magnitude (tWaste t) = true.
Proof.
  unfold extractBlock.
  assert (H0 : magnitude (tReceived tally0) = true
               /\ magnitude (tSold tally0) = true
               /\ magnitude (tWaste tally0) = true) by (repeat split).
  revert H0. generalize tally0. generalize (seq 0 8).
  induction l as [|c l IH]; intros t (Hr & Hs & Hw); simpl; [auto|].
  apply IH, columnStep_magnitude; auto using cleanNumber_not_NaN.
Qed.

(** The opening stock of a record is never the negative zero. *)
Lemma broughtForward_not_negzero day row1 row prev :
  broughtForward (recordOf day row1 row prev) <> Stock (S754_zero true).
Proof.
  rewrite broughtForward_recordOf.
  destruct (_ && _ && _ && _) eqn:E.
  - apply andb_true_iff in E as [E _]. apply andb_true_iff in E as [_ E].
    destruct (broughtForwardSheet _) as [[]|[]| |[] m e]; discriminate.
  - unfold carryOrZero.
    destruct (prev !! rowCode row) as [[[]|[]| |[] m e]|];
      try discriminate.
    destruct (inheritedKey _); discriminate.
Qed.

Lemma add_zero_r x : x <> S754_zero true -> add x zero = x.
Proof. destruct x as [[]|[]| |[] m e]; intros H; try reflexivity; congruence. Qed.

Lemma sub_zero_r x : x <> S754_zero true -> sub x zero = x.
Proof. destruct x as [[]|[]| |[] m e]; intros H; try reflexivity; congruence. Qed.

(** X3. A record without movement keeps its stock: when received, sold
    and waste are all [=== 0] and the opening stock is a number, the
    closing stock is the opening stock, the very same number.  When the
    opening stock is what every object inherits under the code, the closing
    stock is NaN. *)
Theorem idle_record_keeps_stock data out D p :
  processData data = Some out -> D ∈ out -> p ∈ dayProducts D ->
  strictEq (received p) zero = true -> strictEq (sold p) zero = true ->
  strictEq (waste p) zero = true ->
  remain p = match broughtForward p with Stock b => b | Inherited => NaN end.
Proof.
  intros Hout HD Hp. revert data out D p Hout HD Hp.
  apply (processData_Forall (fun p =>
    strictEq (received p) zero = true -> strictEq (sold p) zero = true ->
    strictEq (waste p) zero = true ->
    remain p = match broughtForward p with Stock b => b | Inherited => NaN end)).
  intros day row1 row prev _.
  pose proof (broughtForward_not_negzero day row1 row prev) as Hbf.
  destruct (extractBlock_magnitude row1 row (8 + (day - 1) * 8)%nat)
    as (Mr & Ms & Mw).
  change (extractBlock row1 row (8 + (day - 1) * 8)%nat)
    with (tallyOf day row1 row) in Mr, Ms, Mw.
  revert Hbf. unfold recordOf. cbv zeta.
  cbn [received sold waste remain broughtForward].
  destruct (carryOrZero _ _) as [b|]; [|reflexivity].
  intros Hbf Hr Hs Hw.
  assert (Hb : b <> S754_zero true) by congruence.
  rewrite (magnitude_zero_eq _ Mr Hr), (magnitude_zero_eq _ Ms Hs),
    (magnitude_zero_eq _ Mw Hw).
  unfold closing.
  rewrite (add_zero_r _ Hb), (sub_zero_r _ Hb), (sub_zero_r _ Hb).
  reflexivity.
Qed.

(** The statement above on day 2 of the sheet with a shared code, where
    nothing moves and the record opens and closes at 7. *)
Lemma idle_record_keeps_stock_witness :
  remain (recordAt sharedCodeSheet 1 0)
  = match broughtForward (recordAt sharedCodeSheet 1 0) with
    | Stock b => b
    | Inherited => NaN
    end.
Proof.
  apply (idle_record_keeps_stock sharedCodeSheet
           (default [] (processData sharedCodeSheet))
           (entryAt sharedCodeSheet 1)); by_compute.
Defined.

Lemma map_filter_sublist {A B} (f : A -> B) (p : A -> bool) l :
  List.map f (List.filter p l) `sublist_of` List.map f l.
Proof.
  induction l as [|x l IH]; simpl; [constructor|].
  destruct (p x); simpl; now constructor.
Qed.

Lemma dayFilter_cases days :
  (existsb hasData days = true /\ dayFilter days = List.filter hasData days)
  \/ (existsb hasData days = false /\ dayFilter days = days).
Proof.
  unfold dayFilter. rewrite filter_nil_existsb.
  destruct (existsb hasData days); auto.
Qed.

Lemma dayNum_entries row1 rows n :
  List.map dayNum (List.map (dayEntry row1 rows) (seq 1 n)) = seq 1 n.
Proof.
  rewrite List.map_map. simpl. apply List.map_id.
Qed.

Lemma maxDays_range totalCols : 1 <= maxDays totalCols <= 31.
Proof.
  unfold maxDays.
  destruct (31 <? _) eqn:E1; [simpl; lia|].
  destruct (_ <? 1) eqn:E2; lia.
Qed.

(** What [processData] returns, with the run it was filtered from. *)
Lemma processData_Some data out :
  processData data = Some out ->
  exists row1 rows n,
    data = row1 :: rows
    /\ n = Z.to_nat (maxDays (Z.of_nat (length row1)))
    /\ (1 <= n <= 31)%nat
    /\ out = dayFilter (List.map (dayEntry row1 rows) (seq 1 n)).
Proof.
  unfold processData. destruct data as [|row1 rows]; [discriminate|].
  destruct (_ <? 2)%nat; [discriminate|]. intros [= <-].
  exists row1, rows, (Z.to_nat (maxDays (Z.of_nat (length row1)))).
  pose proof (maxDays_range (Z.of_nat (length row1))).
  rewrite runDays_entries. repeat split; lia.
Qed.

(** X1. [processData] returns without a result exactly when the sheet has
    fewer than two rows.  Otherwise the result is never empty; its days
    are numbered in strictly increasing order, each number between 1 and
    the number of day blocks of the header row, itself at most 31. *)
Theorem result_shape data :
  (processData data = None <-> (length data < 2)%nat)
  /\ (forall out,
        processData data = Some out ->
        out <> []
        /\ List.map dayNum out `sublist_of`
             seq 1 (Z.to_nat (maxDays (Z.of_nat (length (hd [] data)))))
        /\ (length out <= 31)%nat
        /\ (forall D, D ∈ out -> (1 <= dayNum D <= 31)%nat)).
Proof.
  split.
  - unfold processData. destruct data as [|row1 rows]; [simpl; split; auto; lia|].
    destruct (_ <? 2)%nat eqn:E.
    + apply Nat.ltb_lt in E. tauto.
    + apply Nat.ltb_ge in E. split; [discriminate|lia].
  - intros out Hout.
    destruct (processData_Some _ _ Hout) as (row1 & rows & n & -> & Hn & Hr & ->).
    simpl hd. rewrite <- Hn.
    set (entries := List.map (dayEntry row1 rows) (seq 1 n)).
    assert (Hne : entries <> []).
    { unfold entries. destruct n as [|n]; [lia|]. discriminate. }
    assert (Hsub : List.map dayNum (dayFilter entries) `sublist_of` seq 1 n).
    { destruct (dayFilter_cases entries) as [[_ ->] | [_ ->]].
      - rewrite <- (dayNum_entries row1 rows n). apply map_filter_sublist.
      - unfold entries. now rewrite dayNum_entries. }
    split; [|split; [exact Hsub|split]].
    + destruct (dayFilter_cases entries) as [[He ->] | [_ ->]]; [|exact Hne].
      intros Hnil. apply existsb_exists in He as (D & HD & Hd).
      assert (HD' : In D (List.filter hasData entries))
        by (apply filter_In; auto).
      now rewrite Hnil in HD'.
    + apply sublist_length in Hsub.
      rewrite length_map, length_seq in Hsub. lia.
    + intros D HD.
      assert (Hin : dayNum D ∈ seq 1 n).
      { eapply elem_of_sublist; [|exact Hsub].
        apply list_elem_of_In, in_map, list_elem_of_In, HD. }
      apply list_elem_of_In, in_seq in Hin. lia.
Qed.

(** The statement above on the sheet whose product starts late. *)
Lemma result_shape_witness :
  default [] (processData lateStartSheet) <> []
  /\ List.map dayNum (default [] (processData lateStartSheet)) `sublist_of`
       seq 1 (Z.to_nat (maxDays (Z.of_nat (length (hd [] lateStartSheet)))))
  /\ (length (default [] (processData lateStartSheet)) <= 31)%nat
  /\ (forall D, D ∈ default [] (processData lateStartSheet) ->
                (1 <= dayNum D <= 31)%nat).
Proof.
  apply (proj2 (result_shape lateStartSheet)). vm_compute. reflexivity.
Defined.

Lemma inactive_recordOf day row1 row prev :
  active (recordOf day row1 row prev) = false ->
  figures (recordOf day row1 row prev) = stocks [zero; zero; zero; zero; zero].
Proof.
  pose proof (broughtForward_not_negzero day row1 row prev) as Hbf.
  destruct (extractBlock_magnitude row1 row (8 + (day - 1) * 8)%nat)
    as (Mr & Ms & Mw).
  change (extractBlock row1 row (8 + (day - 1) * 8)%nat)
    with (tallyOf day row1 row) in Mr, Ms, Mw.
  revert Hbf. unfold active, figures, recordOf, strictNe. cbv zeta.
  cbn [received sold waste remain broughtForward].
  intros Hbf H.
  apply orb_false_iff in H as [H _].
  apply orb_false_iff in H as [H Hw%negb_false_iff].
  apply orb_false_iff in H as [H Hs%negb_false_iff].
  apply orb_false_iff in H as [Hb Hr%negb_false_iff].
  rewrite (magnitude_zero_eq _ Mr Hr), (magnitude_zero_eq _ Ms Hs),
    (magnitude_zero_eq _ Mw Hw).
  destruct (carryOrZero _ _) as [b|]; [|discriminate Hb].
  unfold openingNonzero, strictNe in Hb. apply negb_false_iff in Hb.
  destruct b as [[]|[]| |[] m e]; try discriminate Hb; try congruence.
  reflexivity.
Qed.

(** X2. The activity flag of a day of the result tells whether one of the
    five figures of one of its records is [!== 0].  A day without activity
    appears in the result only when no day of the sheet has any: the
    result then holds every day block and all figures of all records
    are 0. *)
Theorem activity_flags data out D :
  processData data = Some out -> D ∈ out ->
  hasData D = existsb active (dayProducts D)
  /\ (hasData D = false ->
      length out = Z.to_nat (maxDays (Z.of_nat (length (hd [] data))))
      /\ forall D' p, D' ∈ out -> p ∈ dayProducts D' ->
           hasData D' = false
           /\ figures p = stocks [zero; zero; zero; zero; zero]).
Proof.
  intros Hout HD.
  destruct (processData_Some _ _ Hout) as (row1 & rows & n & -> & Hn & Hr & ->).
  simpl hd. rewrite <- Hn.
  set (entries := List.map (dayEntry row1 rows) (seq 1 n)) in *.
  assert (Hentry : forall E, E ∈ entries ->
            hasData E = existsb active (dayProducts E)
            /\ (hasData E = false -> forall p, p ∈ dayProducts E ->
                  figures p = stocks [zero; zero; zero; zero; zero])).
  { intros E HE. apply list_elem_of_In, in_map_iff in HE as (d & <- & _).
    split; [reflexivity|]. simpl. intros Hflag p Hp.
    assert (Hact : active p = false).
    { destruct (active p) eqn:Ha; [|reflexivity].
      rewrite <- Hflag. symmetry. apply existsb_exists.
      exists p. split; [now apply list_elem_of_In|exact Ha]. }
    apply dayRecords_origin in Hp as (row & prev & _ & _ & ->).
    now apply inactive_recordOf. }
  apply dayFilter_subset in HD as HD'.
  split; [now apply Hentry|]. intros Hflag.
  destruct (dayFilter_cases entries) as [[_ E] | [He E]]; rewrite E in *.
  - apply list_elem_of_In, filter_In in HD as [_ HD]. congruence.
  - split; [unfold entries; now rewrite length_map, length_seq|].
    intros D' p HD1 Hp.
    assert (Hf : hasData D' = false).
    { destruct (hasData D') eqn:Hd; [|reflexivity].
      rewrite <- He. symmetry. apply existsb_exists.
      exists D'. split; [now apply list_elem_of_In|exact Hd]. }
    split; [exact Hf|]. now apply (Hentry D' HD1).
Qed.

(** The statement above on the sheet with a negative opening balance,
    which the source does not seed: its only day has no activity. *)
Lemma activity_flags_witness :
  hasData (entryAt negativeOpeningSheet 0)
    = existsb active (dayProducts (entryAt negativeOpeningSheet 0))
  /\ (hasData (entryAt negativeOpeningSheet 0) = false ->
      length (default [] (processData negativeOpeningSheet))
        = Z.to_nat (maxDays (Z.of_nat (length (hd [] negativeOpeningSheet))))
      /\ forall D' p,
           D' ∈ default [] (processData negativeOpeningSheet) ->
           p ∈ dayProducts D' ->
           hasData D' = false
           /\ figures p = stocks [zero; zero; zero; zero; zero]).
Proof.
  apply (activity_flags negativeOpeningSheet
           (default [] (processData negativeOpeningSheet))); by_compute.
Defined.

(* ===================================================================== *)
(** ** cleanNumber on digits, commas and a sign *)
(* ===================================================================== *)

Lemma isDigit_spec c : isDigit c = true <-> (48 <= c <= 57)%N.
Proof.
  unfold isDigit. rewrite andb_true_iff, !N.leb_le. tauto.
Qed.

Lemma isDigit_not_whitespace c : isDigit c = true -> isWhiteSpace c = false.
Proof.
  intros H%isDigit_spec. unfold isWhiteSpace.
  repeat (apply orb_false_iff; split);
    try (apply N.eqb_neq; lia).
  apply andb_false_iff. left. apply N.leb_gt. lia.
Qed.

Lemma digits_all ds : forall acc n,
  forallb isDigit ds = true ->
  digits ds acc n =
    (foldl (fun a c => 10 * a + (Z.of_N c - 48)) acc ds,
     n + Z.of_nat (length ds), []).
Proof.
  induction ds as [|c r IH]; intros acc n H.
  - simpl. now rewrite Z.add_0_r.
  - cbn [forallb] in H. apply andb_true_iff in H as [Hc Hr].
    cbn [digits foldl length]. rewrite Hc, IH by exact Hr.
    rewrite Nat2Z.inj_succ.
    now replace (n + 1 + Z.of_nat (length r))
      with (n + Z.succ (Z.of_nat (length r))) by lia.
Qed.

Lemma digitsValue_nonneg ds :
  forallb isDigit ds = true -> 0 <= digitsValue ds.
Proof.
  unfold digitsValue.
  assert (G : forall acc, 0 <= acc -> forallb isDigit ds = true ->
            0 <= foldl (fun a c => 10 * a + (Z.of_N c - 48)) acc ds).
  { induction ds as [|c r IH]; intros acc Hacc; simpl; [auto|].
    intros [Hc%isDigit_spec Hr]%andb_true_iff. apply IH; [lia|exact Hr]. }
  apply G. lia.
Qed.

Lemma removeCommas_digits s :
  forallb digitOrComma s = true -> forallb isDigit (removeCommas s) = true.
Proof.
  induction s as [|c r IH]; simpl; [reflexivity|].
  intros [Hc Hr]%andb_true_iff. unfold digitOrComma in Hc.
  destruct (c =? 44)%N eqn:E; simpl; [auto|].
  rewrite orb_false_r in Hc. rewrite Hc. auto.
Qed.

Lemma trimStart_head c r : isWhiteSpace c = false -> trimStart (c :: r) = c :: r.
Proof. simpl. now intros ->. Qed.

(** A string that neither starts nor ends with white space is its own
    trimmed form. *)
Lemma trim_clean s :
  frontClean s = true -> frontClean (rev s) = true -> trim s = s.
Proof.
  intros H1 H2. unfold trim, trimEnd.
  rewrite (trimStart_frontClean s H1), (trimStart_frontClean _ H2).
  apply rev_involutive.
Qed.

Lemma frontClean_digits ds : forallb isDigit ds = true -> frontClean ds = true.
Proof.
  destruct ds as [|c r]; simpl; [reflexivity|].
  intros [Hc _]%andb_true_iff. now rewrite isDigit_not_whitespace.
Qed.

Lemma forallb_rev {A} (f : A -> bool) l : forallb f (rev l) = forallb f l.
Proof.
  induction l as [|x l IH]; simpl; [reflexivity|].
  rewrite forallb_app, IH. simpl. rewrite andb_true_r. apply andb_comm.
Qed.

Lemma trim_digits ds : forallb isDigit ds = true -> trim ds = ds.
Proof.
  intros H. apply trim_clean; apply frontClean_digits; [exact H|].
  now rewrite forallb_rev.
Qed.

Lemma binary_round_opp m e :
  binary_round prec emax true m e = SFopp (binary_round prec emax false m e).
Proof.
  unfold binary_round. destruct (shl_align _ _ _) as [mz ez].
  unfold binary_round_aux.
  destruct (shr_fexp prec emax (Z.pos mz) ez loc_Exact) as [m1 e1].
  destruct (shr_fexp prec emax _ e1 loc_Exact) as [m2 e2].
  destruct (shr_m m2); try reflexivity.
  destruct (e2 <=? _); reflexivity.
Qed.

Lemma ofZ_not_NaN z : isNaN (ofZ z) = false.
Proof.
  unfold ofZ, binary_normalize. destruct z as [|p|p]; [reflexivity| |].
  - pose proof (binary_round_sign false p 0).
    now destruct (binary_round _ _ _ _ _).
  - pose proof (binary_round_sign true p 0).
    now destruct (binary_round _ _ _ _ _).
Qed.

(** [parseFloat] on a non-empty string of digits, with the sign the caller
    has read. *)
Lemma unsigned_digits neg c r :
  forallb isDigit (c :: r) = true ->
  unsigned neg (c :: r) =
    if digitsValue (c :: r) =? 0 then S754_zero neg
    else binary_normalize prec emax
           (if neg then - digitsValue (c :: r) else digitsValue (c :: r)) 0 neg.
Proof.
  intros H. unfold unsigned.
  assert (Hc : isDigit c = true) by (simpl in H; now apply andb_true_iff in H).
  replace (startsWith (utf16 "Infinity") (c :: r)) with false.
  2:{ symmetry. apply isDigit_spec in Hc.
      change (startsWith (utf16 "Infinity") (c :: r))
        with ((73 =? c)%N && startsWith (utf16 "nfinity") r).
      apply andb_false_iff. left. apply N.eqb_neq. lia. }
  rewrite digits_all by exact H. fold (digitsValue (c :: r)).
  cbn [length]. 
  replace (0 + Z.of_nat (S (length r)) =? 0) with false
    by (symmetry; apply Z.eqb_neq; lia).
  simpl andb. cbv iota. unfold ofDecimal, exponent.
  replace (0 - 0) with 0 by lia. simpl (0 <=? 0). cbv iota.
  now rewrite Z.pow_0_r, Z.mul_1_r.
Qed.

(** X5. A cell made of decimal digits and commas, with at least one digit,
    is read as the integer its digits spell, wherever the commas stand
    (1,234 and 12,34 are both 1234), rounded to the nearest number when it
    has more than 53 significant bits. *)
Theorem cleanNumber_digits_and_commas s :
  forallb digitOrComma s = true -> removeCommas s <> [] ->
  cleanNumber (VString s) = ofZ (digitsValue (removeCommas s)).
Proof.
  intros Hs Hne. rewrite cleanNumber_string. unfold cleanStr.
  pose proof (removeCommas_digits s Hs) as Hd.
  rewrite (trim_digits _ Hd).
  destruct (removeCommas s) as [|c r] eqn:E; [congruence|].
  assert (Hc : isDigit c = true) by (simpl in Hd; now apply andb_true_iff in Hd).
  rewrite streq_nil_cons. simpl orb.
  replace (streq (c :: r) (utf16 "-")) with false.
  2:{ symmetry. apply bool_decide_eq_false. vm_compute utf16. intros [= -> _].
      discriminate Hc. }
  assert (P : parseFloat (c :: r) = ofZ (digitsValue (c :: r))).
  { unfold parseFloat. rewrite trimStart_head by now apply isDigit_not_whitespace.
    apply isDigit_spec in Hc as Hc'.
    replace (c =? 45)%N with false by (symmetry; apply N.eqb_neq; lia).
    replace (c =? 43)%N with false by (symmetry; apply N.eqb_neq; lia).
    rewrite unsigned_digits by exact Hd. unfold ofZ.
    destruct (digitsValue (c :: r) =? 0) eqn:Ez; [|reflexivity].
    apply Z.eqb_eq in Ez. now rewrite Ez. }
  now rewrite P, ofZ_not_NaN.
Qed.

(** The statement above at the cell 12,34. *)
Lemma cleanNumber_digits_and_commas_witness :
  cleanNumber (VString (utf16 "12,34")) = ofZ (digitsValue (utf16 "1234")).
Proof.
  apply (cleanNumber_digits_and_commas (utf16 "12,34")); [reflexivity|].
  vm_compute. discriminate.
Defined.

(** X6. A minus sign in front of such a cell gives the opposite number,
    so that the absolute value the tallies use is that of the cell
    without the sign: a sale typed as -3 counts as 3. *)
Theorem cleanNumber_minus s :
  forallb digitOrComma s = true -> removeCommas s <> [] ->
  cleanNumber (VString (45%N :: s)) = SFopp (cleanNumber (VString s))
  /\ abs (cleanNumber (VString (45%N :: s))) = abs (cleanNumber (VString s)).
Proof.
  intros Hs Hne.
  assert (E : cleanNumber (VString (45%N :: s)) = SFopp (cleanNumber (VString s))).
  { rewrite (cleanNumber_digits_and_commas s Hs Hne).
    rewrite cleanNumber_string. unfold cleanStr.
    pose proof (removeCommas_digits s Hs) as Hd.
    change (removeCommas (45%N :: s)) with (45%N :: removeCommas s).
    destruct (removeCommas s) as [|c r] eqn:Er; [congruence|].
    assert (Hc : isDigit c = true)
      by (simpl in Hd; now apply andb_true_iff in Hd).
    assert (Ht : trim (45%N :: c :: r) = 45%N :: c :: r).
    { apply trim_clean; [reflexivity|].
      change (45%N :: c :: r) with ([45%N] ++ c :: r).
      rewrite rev_app_distr.
      assert (Hrev : forallb isDigit (rev (c :: r)) = true)
        by now rewrite forallb_rev.
      destruct (rev (c :: r)) as [|x l] eqn:Erev.
      - apply (f_equal (@length N)) in Erev. rewrite length_rev in Erev.
        discriminate Erev.
      - exact (frontClean_digits _ Hrev). }
    rewrite Ht, streq_nil_cons. simpl orb.
    replace (streq (45%N :: c :: r) (utf16 "-")) with false
      by (symmetry; apply bool_decide_eq_false; vm_compute utf16; discriminate).
    assert (P : parseFloat (45%N :: c :: r) = SFopp (ofZ (digitsValue (c :: r)))).
    { unfold parseFloat. rewrite trimStart_head by reflexivity.
      simpl (45 =? 45)%N. cbv iota.
      rewrite unsigned_digits by exact Hd. unfold ofZ.
      pose proof (digitsValue_nonneg _ Hd) as Hv.
      destruct (digitsValue (c :: r)) as [|p|p] eqn:Ev; [reflexivity| |lia].
      simpl. apply binary_round_opp. }
    rewrite P.
    pose proof (ofZ_not_NaN (digitsValue (c :: r))) as Hn.
    now destruct (ofZ (digitsValue (c :: r))). }
  split; [exact E|]. rewrite E. now destruct (cleanNumber (VString s)).
Qed.

(** The statement above at the cell -3. *)
Lemma cleanNumber_minus_witness :
  cleanNumber (VString (45%N :: utf16 "3")) = SFopp (cleanNumber (VString (utf16 "3")))
  /\ abs (cleanNumber (VString (45%N :: utf16 "3")))
     = abs (cleanNumber (VString (utf16 "3"))).
Proof.
  apply (cleanNumber_minus (utf16 "3")); [reflexivity|].
  vm_compute. discriminate.
Defined.

(* ===================================================================== *)
(** ** What a day reads of the sheet *)
(* ===================================================================== *)

Lemma foldl_ext_in {A B} (f g : A -> B -> A) l :
  (forall a x, In x l -> f a x = g a x) ->
  forall a, foldl f a l = foldl g a l.
Proof.
  induction l as [|x l IH]; intros H a; simpl; [reflexivity|].
  rewrite H by now left. apply IH. intros a' y Hy. apply H. now right.
Qed.

(** X4. The figures read for a day depend on nothing but the eight header
    cells and the eight cells of the row in the block of that day: two
    sheets that agree there give the same tally, whatever their other
    columns hold. *)
Theorem extractBlock_reads_own_block row1 row1' row row' start :
  (forall c, (c < 8)%nat -> row1 !! (start + c)%nat = row1' !! (start + c)%nat) ->
  (forall c, (c < 8)%nat -> row !! (start + c)%nat = row' !! (start + c)%nat) ->
  extractBlock row1 row start = extractBlock row1' row' start.
Proof.
  intros H1 H2. unfold extractBlock. apply foldl_ext_in.
  intros t c Hc%in_seq. unfold headerAt, cell.
  rewrite H1, H2 by lia. reflexivity.
Qed.

(** The statement above on the scenario sheet: the block of day 2 is not
    touched when the cells of day 1 are blanked. *)
Lemma extractBlock_reads_own_block_witness :
  extractBlock (hd [] scenario) (nth 1 scenario []) 16
  = extractBlock (hd [] scenario)
      (idCells "bakery" "P1" "bread" ++ repeat [] 8
         ++ List.map utf16 [""%string; "3"%string; ""%string; "3"%string;
                            ""%string; ""%string; ""%string; ""%string]) 16.
Proof.
  apply extractBlock_reads_own_block; intros c Hc; [reflexivity|].
  do 8 (destruct c as [|c]; [reflexivity|]). lia.
Defined.

Lemma isProductRow_take n row :
  (4 <= n)%nat -> isProductRow (take n row) = isProductRow row.
Proof.
  intros Hn. unfold isProductRow, blank.
  now rewrite !lookup_take_lt by lia.
Qed.

Lemma recordOf_take n day row1 row prev :
  (1 <= day)%nat -> (8 + 8 * day <= n)%nat ->
  recordOf day (take n row1) (take n row) prev = recordOf day row1 row prev.
Proof.
  intros Hd Hn.
  assert (T : tallyOf day (take n row1) (take n row) = tallyOf day row1 row).
  { unfold tallyOf. apply extractBlock_reads_own_block; intros c Hc;
      apply lookup_take_lt; lia. }
  unfold recordOf, rowCode, rowCategory, rowName.
  now rewrite T, !lookup_take_lt by lia.
Qed.

Lemma dayRecords_take n day row1 rows :
  (1 <= day)%nat -> (8 + 8 * day <= n)%nat ->
  forall prev,
    dayRecords day (take n row1) prev (List.map (take n) rows)
    = dayRecords day row1 prev rows.
Proof.
  intros Hd Hn. induction rows as [|row rest IH]; intros prev; simpl;
    [reflexivity|].
  rewrite isProductRow_take by lia.
  destruct (isProductRow row); [|apply IH].
  rewrite recordOf_take by assumption. f_equal. apply IH.
Qed.

(** X7. The first [d] days of the run, the carry map included, read no
    column beyond the block of day [d]: cutting every row of the sheet,
    the header row too, after column [8 + 8 d] or later leaves them as
    they are.  Filling in later days never changes an earlier day. *)
Theorem later_columns_ignored row1 rows d n :
  (8 + 8 * d <= n)%nat ->
  runDays (take n row1) (List.map (take n) rows) d = runDays row1 rows d.
Proof.
  induction d as [|d IH]; intros Hn; [reflexivity|].
  rewrite !runDays_S, !dayStep_spec, IH by lia.
  now rewrite dayRecords_take by lia.
Qed.

(** The statement above on the scenario sheet cut after its first block. *)
Lemma later_columns_ignored_witness :
  runDays (take 16 (hd [] scenario)) (List.map (take 16) (tail scenario)) 1
  = runDays (hd [] scenario) (tail scenario) 1.
Proof.
  apply later_columns_ignored. simpl. lia.
Defined.

(* ===================================================================== *)
(** ** Codes do not mix *)
(* ===================================================================== *)

Lemma recordOf_ext day row1 row prev prev' :
  prev !! rowCode row = prev' !! rowCode row ->
  recordOf day row1 row prev = recordOf day row1 row prev'.
Proof.
  intros H.
  assert (E : forall b,
            carryOrZero (seed day prev (rowCode row) b) (rowCode row)
            = carryOrZero (seed day prev' (rowCode row) b) (rowCode row)).
  { intros b. unfold seed, noCarry. rewrite H.
    destruct (_ && _ && _); unfold carryOrZero; [|now rewrite H].
    unfold setCarry. destruct (streq (rowCode row) protoKey);
      [now rewrite H|now rewrite !lookup_insert_eq]. }
  unfold recordOf. cbv zeta. now rewrite E.
Qed.

Lemma dayRecords_of_code c day row1 rows : forall prev prev',
  prev !! c = prev' !! c ->
  recordsOfCode c (dayRecords day row1 prev rows)
    = dayRecords day row1 prev' (rowsOfCode c rows)
  /\ foldl pushCarry prev (dayRecords day row1 prev rows) !! c
     = foldl pushCarry prev' (dayRecords day row1 prev' (rowsOfCode c rows)) !! c.
Proof.
  induction rows as [|row rest IH]; intros prev prev' H; simpl; [auto|].
  destruct (streq (rowCode row) c) eqn:Ec; simpl;
    destruct (isProductRow row) eqn:Hrow; simpl; auto.
  - apply streq_true in Ec as Ec'.
    assert (R : recordOf day row1 row prev = recordOf day row1 row prev')
      by (apply recordOf_ext; now rewrite Ec').
    cbn [code recordOf]. rewrite Ec. rewrite <- R.
    destruct (IH (pushCarry prev (recordOf day row1 row prev))
                 (pushCarry prev' (recordOf day row1 row prev))) as [E1 E2].
    { unfold pushCarry, setCarry. cbn [code remain recordOf]. rewrite Ec'.
      destruct (streq c protoKey); [exact H|now rewrite !lookup_insert_eq]. }
    split; [now f_equal|exact E2].
  - cbn [code recordOf]. rewrite Ec.
    apply IH. unfold pushCarry. cbn [code recordOf].
    rewrite lookup_setCarry_ne; [exact H|].
    intros E. apply (proj2 (streq_true _ _)) in E. congruence.
Qed.

Lemma carryAfter_of_code c row1 rows n :
  carryAfter row1 rows n !! c = carryAfter row1 (rowsOfCode c rows) n !! c.
Proof.
  induction n as [|n IH]; [reflexivity|].
  rewrite !carryAfter_S. simpl. replace (n - 0)%nat with n by lia.
  now apply dayRecords_of_code.
Qed.

(** X8. Rows of different product codes do not influence each other: on
    every day of the run, the records of a code are those the sheet would
    give if it held the rows of that code only. *)
Theorem codes_do_not_mix c row1 rows n :
  List.map (fun D => recordsOfCode c (dayProducts D))
    (globalStoreData (runDays row1 rows n))
  = List.map dayProducts (globalStoreData (runDays row1 (rowsOfCode c rows) n)).
Proof.
  rewrite !runDays_entries, !List.map_map. apply List.map_ext.
  intros d. simpl. apply dayRecords_of_code, carryAfter_of_code.
Qed.

(* ===================================================================== *)
(** ** Sums over a day *)
(* ===================================================================== *)

Lemma dayTotals_fold ps : forall t,
  foldl (fun t p =>
           mkTotals (add (totalRec t) (received p)) (add (totalSold t) (sold p))
                    (add (totalWa t) (waste p)) (add (totalRem t) (remain p)))
        t ps
  = mkTotals (foldl (fun a p => add a (received p)) (totalRec t) ps)
             (foldl (fun a p => add a (sold p)) (totalSold t) ps)
             (foldl (fun a p => add a (waste p)) (totalWa t) ps)
             (foldl (fun a p => add a (remain p)) (totalRem t) ps).
Proof.
  induction ps as [|p ps IH]; intros t; simpl; [now destruct t|].
  now rewrite IH.
Qed.

Lemma trendPoint_fold ps : forall a b c,
  foldl (fun '(recv, sold', waste') p =>
           (add recv (received p), add sold' (sold p), add waste' (waste p)))
        (a, b, c) ps
  = (foldl (fun a p => add a (received p)) a ps,
     foldl (fun a p => add a (sold p)) b ps,
     foldl (fun a p => add a (waste p)) c ps).
Proof.
  induction ps as [|p ps IH]; intros a b c; simpl; [reflexivity|].
  now rewrite IH.
Qed.

Lemma foldl_add_nonneg (f : Product -> num) ps :
  Forall (fun p => nonneg (f p) = true) ps ->
  forall a, nonneg a = true ->
    nonneg (foldl (fun a p => add a (f p)) a ps) = true.
Proof.
  induction 1 as [|p ps Hp _ IH]; intros a Ha; simpl; [exact Ha|].
  apply IH, nonneg_add; assumption.
Qed.

Lemma shown_not_negative x : gt zero (max zero x) = false.
Proof.
  destruct x as [[]|[]| |[] m e]; try reflexivity.
Qed.

Lemma shown_positive x : gt x zero = true -> max zero x = x.
Proof.
  destruct x as [[]|[]| |[] m e]; try discriminate; reflexivity.
Qed.

(** X9. For every day of a result, the sums of received, sold and waste
    that the summary cards show are at least zero and not NaN; the trend
    chart plots these same three sums and the search for the default day
    uses the same sum of sales.  The remaining stock shown on the card is
    never below zero: it is the sum of the closing stocks when that sum is
    above zero. *)
Theorem day_sums data out D :
  processData data = Some out -> D ∈ out ->
  let t := dayTotals (dayProducts D) in
  nonneg (totalRec t) = true /\ nonneg (totalSold t) = true
  /\ nonneg (totalWa t) = true
  /\ trendPoint D = (totalRec t, totalSold t, totalWa t)
  /\ daySales D = totalSold t
  /\ gt zero (shownRemaining t) = false
  /\ (gt (totalRem t) zero = true -> shownRemaining t = totalRem t).
Proof.
  intros Hout HD t. subst t.
  assert (F : Forall (fun p => nonneg (received p) = true
                       /\ nonneg (sold p) = true /\ nonneg (waste p) = true)
                (dayProducts D)).
  { apply Forall_forall. intros p Hp. revert data out D p Hout HD Hp.
    apply (processData_Forall (fun p => nonneg (received p) = true
      /\ nonneg (sold p) = true /\ nonneg (waste p) = true)).
    intros day row1 row prev _. apply extractBlock_nonneg. }
  unfold dayTotals, trendPoint, daySales, shownRemaining.
  rewrite dayTotals_fold, trendPoint_fold. cbn [totalRec totalSold totalWa totalRem].
  repeat split.
  - apply foldl_add_nonneg; [|reflexivity].
    eapply Forall_impl; [exact F|]. now intros p (H & _ & _).
  - apply foldl_add_nonneg; [|reflexivity].
    eapply Forall_impl; [exact F|]. now intros p (_ & H & _).
  - apply foldl_add_nonneg; [|reflexivity].
    eapply Forall_impl; [exact F|]. now intros p (_ & _ & H).
  - apply shown_not_negative.
  - apply shown_positive.
Qed.

(** The statement above on day 1 of the scenario sheet. *)
Lemma day_sums_witness :
  let t := dayTotals (dayProducts (entryAt scenario 0)) in
  nonneg (totalRec t) = true /\ nonneg (totalSold t) = true
  /\ nonneg (totalWa t) = true
  /\ trendPoint (entryAt scenario 0) = (totalRec t, totalSold t, totalWa t)
  /\ daySales (entryAt scenario 0) = totalSold t
  /\ gt zero (shownRemaining t) = false
  /\ (gt (totalRem t) zero = true -> shownRemaining t = totalRem t).
Proof.
  apply (day_sums scenario (default [] (processData scenario))); by_compute.
Defined.

(* ===================================================================== *)
(** ** The default day *)
(* ===================================================================== *)

Lemma scanDown_spec days n :
  match scanDown days n with
  | Some j =>
      (j < n)%nat
      /\ gt (daySales (nth j days (mkDayData 0 false []))) zero = true
      /\ forall k, (j < k < n)%nat ->
           gt (daySales (nth k days (mkDayData 0 false []))) zero = false
  | None =>
      forall k, (k < n)%nat ->
        gt (daySales (nth k days (mkDayData 0 false []))) zero = false
  end.
Proof.
  induction n as [|n IH]; simpl; [intros k Hk; lia|].
  destruct (gt (daySales (nth n days _)) zero) eqn:E.
  - repeat split; [lia|exact E|]. intros k Hk. lia.
  - destruct (scanDown days n) as [j|].
    + destruct IH as (Hj & Hs & Hl). repeat split; [lia|exact Hs|].
      intros k Hk. destruct (Nat.eq_dec k n) as [->|]; [exact E|].
      apply Hl. lia.
    + intros k Hk. destruct (Nat.eq_dec k n) as [->|]; [exact E|].
      apply IH. lia.
Qed.

(** X10. After [processData] has produced a result, the day shown is a
    day of the result, so that updateDashboardView does not return at
    once.  An index the selector already holds is kept when it is still
    in range.  Otherwise (at start, or when the result has become
    shorter) the day chosen is the last one whose sales are above zero,
    and the last day of the result when no day has sales. *)
Theorem default_day data out a :
  processData data = Some out -> -1 <= a ->
  exists i,
    selectActiveDay a out = Z.of_nat i /\ (i < length out)%nat
    /\ viewSkipped (Z.of_nat i) out = false
    /\ (0 <= a < Z.of_nat (length out) -> Z.of_nat i = a)
    /\ (a = -1 \/ Z.of_nat (length out) <= a ->
        (forall k, (i < k < length out)%nat ->
           gt (daySales (nth k out (mkDayData 0 false []))) zero = false)
        /\ (gt (daySales (nth i out (mkDayData 0 false []))) zero = true
            \/ (S i = length out
                /\ forall k, (k < length out)%nat ->
                     gt (daySales (nth k out (mkDayData 0 false []))) zero
                     = false))).
Proof.
  intros Hout Ha.
  assert (Hne : (0 < length out)%nat).
  { destruct (processData_Some _ _ Hout) as (row1 & rows & n & _ & _ & Hr & ->).
    set (entries := List.map (dayEntry row1 rows) (seq 1 n)).
    assert (He : (0 < length entries)%nat)
      by (unfold entries; rewrite length_map, length_seq; lia).
    destruct (dayFilter_cases entries) as [[Hx ->] | [_ ->]]; [|exact He].
    apply existsb_exists in Hx as (D & HD & Hd).
    assert (HD' : In D (List.filter hasData entries)) by (apply filter_In; auto).
    destruct (List.filter hasData entries); [destruct HD'|simpl; lia]. }
  assert (V : forall i, (i < length out)%nat -> viewSkipped (Z.of_nat i) out = false).
  { intros i Hi. unfold viewSkipped. apply orb_false_iff. split.
    - apply Z.ltb_ge. lia.
    - apply Z.leb_gt. lia. }
  unfold selectActiveDay.
  destruct ((a =? -1) || (Z.of_nat (length out) <=? a)) eqn:C.
  - pose proof (scanDown_spec out (length out)) as S.
    destruct (scanDown out (length out)) as [j|].
    + destruct S as (Hj & Hs & Hl).
      exists j. repeat split; auto.
      intros Hr. apply orb_true_iff in C as [C%Z.eqb_eq | C%Z.leb_le]; lia.
    + exists (length out - 1)%nat. repeat split.
      * lia.
      * lia.
      * apply V. lia.
      * intros Hr. apply orb_true_iff in C as [C%Z.eqb_eq | C%Z.leb_le]; lia.
      * intros k Hk. apply S. lia.
      * right. split; [lia|exact S].
  - apply orb_false_iff in C as [C1%Z.eqb_neq C2%Z.leb_gt].
    assert (Ea : Z.of_nat (Z.to_nat a) = a) by lia.
    exists (Z.to_nat a).
    split; [lia|]. split; [lia|]. split; [apply V; lia|].
    split; [intros _; exact Ea|]. intros [E|E]; lia.
Qed.

(** The statement above at start on the sheet whose product starts late:
    days 2 and 4 are in the result and only day 2 has sales. *)
Lemma default_day_witness :
  exists i,
    selectActiveDay (-1) (default [] (processData lateStartSheet)) = Z.of_nat i
    /\ (i < length (default [] (processData lateStartSheet)))%nat
    /\ viewSkipped (Z.of_nat i) (default [] (processData lateStartSheet)) = false
    /\ (0 <= -1 < Z.of_nat (length (default [] (processData lateStartSheet))) ->
        Z.of_nat i = -1)
    /\ (-1 = -1 \/ Z.of_nat (length (default [] (processData lateStartSheet))) <= -1 ->
        (forall k, (i < k < length (default [] (processData lateStartSheet)))%nat ->
           gt (daySales (nth k (default [] (processData lateStartSheet))
                           (mkDayData 0 false []))) zero = false)
        /\ (gt (daySales (nth i (default [] (processData lateStartSheet))
                            (mkDayData 0 false []))) zero = true
            \/ (S i = length (default [] (processData lateStartSheet))
                /\ forall k, (k < length (default [] (processData lateStartSheet)))%nat ->
                     gt (daySales (nth k (default [] (processData lateStartSheet))
                                     (mkDayData 0 false []))) zero
                     = false))).
Proof.
  apply (default_day lateStartSheet); [vm_compute; reflexivity|lia].
Defined.

(* ===================================================================== *)
(** ** Date labels *)
(* ===================================================================== *)

Lemma notSpaces_split s :
  exists rest,
    s = notSpaces s ++ rest /\ forallb noSpace (notSpaces s) = true
    /\ (rest = [] \/ exists r, rest = 32%N :: r).
Proof.
  induction s as [|c r (rest & E & F & R)]; simpl.
  - exists []. auto.
  - destruct (c =? 32)%N eqn:Ec.
    + apply N.eqb_eq in Ec. subst c. exists (32%N :: r). eauto.
    + exists rest. simpl. unfold noSpace at 1. rewrite Ec. simpl.
      repeat split; [now f_equal|exact F|exact R].
Qed.

Lemma matchToken_sound s t :
  matchToken s = Some t ->
  exists rest,
    s = t ++ rest /\ t <> [] /\ forallb noSpace t = true
    /\ (rest = [] \/ exists r, rest = 32%N :: r).
Proof.
  unfold matchToken. destruct (notSpaces_split s) as (rest & E & F & R).
  destruct (notSpaces s) as [|c u] eqn:N; [discriminate|].
  intros [= <-]. exists rest. repeat split; auto; discriminate.
Qed.

Lemma matchSpaces_sound s : forall m,
  matchSpaces s = Some m ->
  exists ws tok rest,
    m = ws ++ tok /\ s = m ++ rest
    /\ ws <> [] /\ forallb isWhiteSpace ws = true
    /\ tok <> [] /\ forallb noSpace tok = true
    /\ (rest = [] \/ exists r, rest = 32%N :: r).
Proof.
  induction s as [|c r IH]; intros m; simpl; [discriminate|].
  destruct (isWhiteSpace c) eqn:Hc; [|discriminate].
  destruct (matchSpaces r) as [m'|].
  - intros [= <-].
    destruct (IH m' eq_refl) as (ws & tok & rest & -> & -> & Hw & Fw & Ht & Ft & R).
    exists (c :: ws), tok, rest. simpl. rewrite Hc, Fw.
    repeat split; auto; try discriminate.
  - destruct (matchToken r) as [t|] eqn:T; [|discriminate].
    intros [= <-].
    destruct (matchToken_sound _ _ T) as (rest & -> & Ht & Ft & R).
    exists [c], t, rest. simpl. rewrite Hc.
    repeat split; auto; discriminate.
Qed.

Lemma matchDateLabel_sound s : forall m,
  matchDateLabel s = Some m -> exists rest, s = m ++ rest /\ dateShaped m rest.
Proof.
  induction s as [|c r IH]; intros m; simpl; [discriminate|].
  destruct (isDigit c) eqn:Hc; [|discriminate].
  destruct (matchDateLabel r) as [m'|].
  - intros [= <-].
    destruct (IH m' eq_refl)
      as (rest & -> & ds & ws & tok & -> & Hd & Fd & Hw & Fw & Ht & Ft & R).
    exists rest. split; [reflexivity|].
    exists (c :: ds), ws, tok. simpl. rewrite Hc, Fd.
    repeat split; auto; discriminate.
  - destruct (matchSpaces r) as [u|] eqn:U; [|discriminate].
    intros [= <-].
    destruct (matchSpaces_sound _ _ U)
      as (ws & tok & rest & -> & -> & Hw & Fw & Ht & Ft & R).
    exists rest. split; [reflexivity|].
    exists [c], ws, tok. simpl. rewrite Hc.
    repeat split; auto; discriminate.
Qed.

Lemma matchToken_complete c r : noSpace c = true -> matchToken (c :: r) <> None.
Proof.
  unfold matchToken, noSpace. simpl. intros H%negb_true_iff. now rewrite H.
Qed.

Lemma matchSpaces_cons w s :
  matchSpaces (w :: s) =
    if isWhiteSpace w then
      match matchSpaces s with
      | Some m => Some (w :: m)
      | None => option_map (cons w) (matchToken s)
      end
    else None.
Proof. reflexivity. Qed.

Lemma matchDateLabel_cons d s :
  matchDateLabel (d :: s) =
    if isDigit d then
      match matchDateLabel s with
      | Some m => Some (d :: m)
      | None => option_map (cons d) (matchSpaces s)
      end
    else None.
Proof. reflexivity. Qed.

Lemma matchSpaces_complete ws : forall c r,
  ws <> [] -> forallb isWhiteSpace ws = true -> noSpace c = true ->
  matchSpaces (ws ++ c :: r) <> None.
Proof.
  induction ws as [|w ws IH]; intros c r Hne F Hc; [congruence|].
  cbn [forallb] in F. apply andb_true_iff in F as [Hw F].
  cbn [app]. rewrite matchSpaces_cons, Hw.
  destruct ws as [|w' ws'].
  - cbn [app]. destruct (matchSpaces (c :: r)); [discriminate|].
    pose proof (matchToken_complete c r Hc).
    destruct (matchToken (c :: r)); [discriminate|congruence].
  - specialize (IH c r ltac:(discriminate) F Hc).
    destruct (matchSpaces ((w' :: ws') ++ c :: r)); [discriminate|congruence].
Qed.

Lemma matchDateLabel_complete ds : forall ws c r,
  ds <> [] -> forallb isDigit ds = true ->
  ws <> [] -> forallb isWhiteSpace ws = true -> noSpace c = true ->
  matchDateLabel (ds ++ ws ++ c :: r) <> None.
Proof.
  induction ds as [|d ds IH]; intros ws c r Hne F Hw Fw Hc; [congruence|].
  cbn [forallb] in F. apply andb_true_iff in F as [Hd F].
  cbn [app]. rewrite matchDateLabel_cons, Hd.
  destruct ds as [|d' ds'].
  - cbn [app]. destruct (matchDateLabel (ws ++ c :: r)); [discriminate|].
    pose proof (matchSpaces_complete ws c r Hw Fw Hc).
    destruct (matchSpaces (ws ++ c :: r)); [discriminate|congruence].
  - specialize (IH ws c r ltac:(discriminate) F Hw Fw Hc).
    destruct (matchDateLabel ((d' :: ds') ++ ws ++ c :: r));
      [discriminate|congruence].
Qed.

(** X11. The label of a day is never empty.  It is read from the header
    cell that opens the block of the day exactly when that cell starts
    with digits, white space and a character other than a space; the
    label is then the start of the cell, made of digits, white space and a
    token without a space, and it stops at the first space after the
    token or at the end of the cell.  In every other case the label is
    the word for day followed by the day number. *)
Theorem dateLabel_spec row1 day :
  dateLabel row1 day <> []
  /\ (dateLabel row1 day = defaultLabel day
      \/ exists h rest,
           row1 !! (8 + (day - 1) * 8)%nat = Some h
           /\ h = dateLabel row1 day ++ rest
           /\ dateShaped (dateLabel row1 day) rest)
  /\ (forall ds ws c r,
        row1 !! (8 + (day - 1) * 8)%nat = Some (ds ++ ws ++ c :: r) ->
        ds <> [] -> forallb isDigit ds = true ->
        ws <> [] -> forallb isWhiteSpace ws = true -> noSpace c = true ->
        exists rest,
          ds ++ ws ++ c :: r = dateLabel row1 day ++ rest
          /\ dateShaped (dateLabel row1 day) rest).
Proof.
  assert (D : defaultLabel day <> []) by (vm_compute utf16; discriminate).
  unfold dateLabel. fold (defaultLabel day).
  destruct (row1 !! (8 + (day - 1) * 8)%nat) as [h|] eqn:Eh.
  2:{ repeat split; auto. intros; discriminate. }
  destruct (streq h []) eqn:En.
  { apply streq_true in En. subst h. repeat split; auto.
    intros ds ws c r [= E]. destruct ds, ws; discriminate. }
  destruct (matchDateLabel h) as [m|] eqn:M.
  - destruct (matchDateLabel_sound _ _ M) as (rest & E & S).
    split; [|split].
    + destruct S as (ds & ws & tok & -> & Hd & _). destruct ds; [congruence|discriminate].
    + right. exists h, rest. auto.
    + intros ds ws c r [= <-] _ _ _ _ _. exists rest. auto.
  - split; [exact D|split; [now left|]].
    intros ds ws c r [= E] Hd Fd Hw Fw Hc. exfalso.
    apply (matchDateLabel_complete ds ws c r Hd Fd Hw Fw Hc). now rewrite <- E.
Qed.

(** The statement above on the header of the scenario sheet, whose first
    block opens with the cell 1 ม.ค. ยกมา. *)
Lemma dateLabel_spec_witness :
  exists rest,
    utf16 "1" ++ utf16 " " ++ utf16 "ม.ค. ยกมา" = dateLabel (hd [] scenario) 1 ++ rest
    /\ dateShaped (dateLabel (hd [] scenario) 1) rest.
Proof.
  apply (proj2 (proj2 (dateLabel_spec (hd [] scenario) 1))
           (utf16 "1") (utf16 " ") 3617%N (utf16 ".ค. ยกมา"));
    try reflexivity; vm_compute; discriminate.
Defined.

(* ===================================================================== *)
(** ** Blank blocks, short rows and sheets without day columns *)
(* ===================================================================== *)

Lemma columnStep_zero header : columnStep header zero tally0 = tally0.
Proof.
  unfold columnStep.
  repeat match goal with |- context [if ?b then _ else _] => destruct b end;
    reflexivity.
Qed.

(** X12. A block in which every cell of the row is absent or is read as 0
    (blank, a dash, text) gives no figures at all: opening balance,
    received, sold and waste are 0.  This is the case of a row that ends
    before the block. *)
Theorem blank_block_reads_zero row1 row start :
  (forall c, (c < 8)%nat -> cleanNumber (cell row (start + c)) = zero) ->
  extractBlock row1 row start = tally0.
Proof.
  intros H. unfold extractBlock.
  assert (G : forall l, (forall c, In c l -> (c < 8)%nat) ->
            foldl (fun t c =>
                     columnStep (headerAt row1 (start + c))
                       (cleanNumber (cell row (start + c))) t) tally0 l
            = tally0).
  { induction l as [|c l IH]; intros Hl; simpl; [reflexivity|].
    rewrite H by (apply Hl; now left).
    rewrite columnStep_zero. apply IH. intros c' Hc'. apply Hl. now right. }
  apply G. intros c Hc%in_seq. lia.
Qed.

(** The statement above on a row that holds its identity cells only. *)
Lemma blank_block_reads_zero_witness :
  extractBlock (headerRow 1) (idCells "bakery" "P1" "bread") 8 = tally0.
Proof.
  apply blank_block_reads_zero. intros c Hc.
  do 8 (destruct c as [|c]; [reflexivity|]). lia.
Defined.

Lemma classify_empty : classify [] = Ignored.
Proof. reflexivity. Qed.

Lemma extractBlock_no_header row1 row start :
  (length row1 <= start)%nat -> extractBlock row1 row start = tally0.
Proof.
  intros H. unfold extractBlock.
  assert (S : forall c v t, columnStep (headerAt row1 (start + c)) v t = t).
  { intros c v t. unfold headerAt. rewrite lookup_ge_None_2 by lia.
    rewrite columnStep_classify. reflexivity. }
  assert (G : forall l t,
            foldl (fun t c =>
                     columnStep (headerAt row1 (start + c))
                       (cleanNumber (cell row (start + c))) t) t l = t).
  { induction l as [|c l IH]; intros t; simpl; [reflexivity|].
    rewrite S. apply IH. }
  apply G.
Qed.

Lemma dayRecords_empty row1 rows :
  (length row1 <= 8)%nat ->
  Forall (fun row => inheritedKey (rowCode row) = false)
    (List.filter isProductRow rows) ->
  forall prev,
    map_Forall (fun _ v => v = zero) prev ->
    dayRecords 1 row1 prev rows
    = List.map emptyRecord (List.filter isProductRow rows).
Proof.
  intros H. induction rows as [|row rest IH]; intros Hk prev Hp; simpl;
    [reflexivity|].
  simpl in Hk. destruct (isProductRow row); [|now apply IH].
  apply Forall_cons in Hk as [Hrow Hk].
  assert (R : recordOf 1 row1 row prev = emptyRecord row).
  { unfold recordOf, tallyOf. rewrite extractBlock_no_header by (simpl; lia).
    unfold seed, tally0. cbn [broughtForwardSheet tReceived tSold tWaste].
    replace (gt zero zero) with false by reflexivity.
    rewrite andb_false_r.
    assert (B : carryOrZero prev (rowCode row) = Stock zero).
    { unfold carryOrZero. destruct (prev !! rowCode row) as [v|] eqn:E;
        [now rewrite (Hp _ _ E)|now rewrite Hrow]. }
    rewrite B. reflexivity. }
  rewrite R. simpl. f_equal. apply IH; [exact Hk|].
  unfold pushCarry, setCarry. destruct (streq _ _); [exact Hp|].
  apply map_Forall_insert_2; [reflexivity|exact Hp].
Qed.

(** X13. A sheet whose header row has no day columns (eight columns or
    fewer), and none of whose product rows carries as its code the name of
    a property every object inherits, still gives a result: one day,
    numbered 1, without activity, with one record per product row and all
    figures 0. *)
Theorem sheet_without_day_columns row1 rows :
  (length row1 <= 8)%nat -> rows <> [] ->
  Forall (fun row => inheritedKey (rowCode row) = false)
    (List.filter isProductRow rows) ->
  processData (row1 :: rows)
  = Some [mkDayData 1 false
            (List.map emptyRecord (List.filter isProductRow rows))].
Proof.
  intros H Hne Hk. unfold processData.
  replace (length (row1 :: rows) <? 2)%nat with false.
  2:{ symmetry. apply Nat.ltb_ge. destruct rows; [congruence|simpl; lia]. }
  assert (M : maxDays (Z.of_nat (length row1)) = 1).
  { unfold maxDays.
    assert (Q : (Z.of_nat (length row1) - 8) / 8 <= 0)
      by (apply Z.div_le_upper_bound; lia).
    destruct (31 <? _) eqn:E1; [apply Z.ltb_lt in E1; lia|].
    destruct (_ <? 1) eqn:E2; [reflexivity|apply Z.ltb_ge in E2; lia]. }
  rewrite M, runDays_entries. simpl seq. simpl List.map.
  unfold dayEntry. simpl (1 - 1)%nat.
  rewrite (dayRecords_empty row1 rows H Hk) by apply map_Forall_empty.
  set (ps := List.map emptyRecord (List.filter isProductRow rows)).
  assert (A : existsb active ps = false).
  { unfold ps. induction (List.filter isProductRow rows) as [|r l IH];
      [reflexivity|apply IH; now apply Forall_cons in Hk as [_ Hk]]. }
  rewrite A. reflexivity.
Qed.

(** The statement above on a sheet of identity columns only. *)
Lemma sheet_without_day_columns_witness :
  processData [idHeader; idCells "bakery" "P1" "bread"]
  = Some [mkDayData 1 false
            (List.map emptyRecord
               (List.filter isProductRow [idCells "bakery" "P1" "bread"]))].
Proof.
  apply sheet_without_day_columns;
    [simpl; lia|discriminate|vm_compute; repeat constructor].
Defined.

(* ===================================================================== *)
(** ** Cells padded with white space *)
(* ===================================================================== *)

Lemma trimStart_app_whitespace pre x :
  forallb isWhiteSpace pre = true -> trimStart (pre ++ x) = trimStart x.
Proof.
  induction pre as [|c pre IH]; simpl; [reflexivity|].
  intros [Hc Hp]%andb_true_iff. rewrite Hc. auto.
Qed.

Lemma trimStart_app x post :
  trimStart x <> [] -> trimStart (x ++ post) = trimStart x ++ post.
Proof.
  induction x as [|c x IH]; simpl; [congruence|].
  destruct (isWhiteSpace c); auto.
Qed.

Lemma trimEnd_app_whitespace x post :
  forallb isWhiteSpace post = true -> trimEnd (x ++ post) = trimEnd x.
Proof.
  intros H. unfold trimEnd. rewrite rev_app_distr.
  now rewrite trimStart_app_whitespace by now rewrite forallb_rev.
Qed.

Lemma trim_padding pre x post :
  forallb isWhiteSpace pre = true -> forallb isWhiteSpace post = true ->
  trim (pre ++ x ++ post) = trim x.
Proof.
  intros Hpre Hpost. unfold trim.
  rewrite trimStart_app_whitespace by exact Hpre.
  destruct (trimStart x) as [|c y] eqn:E.
  - assert (W : forallb isWhiteSpace x = true).
    { clear -E. induction x as [|c x IH]; [reflexivity|]. simpl in *.
      destruct (isWhiteSpace c); [auto|discriminate]. }
    rewrite trimStart_whitespace; [reflexivity|].
    now rewrite forallb_app, W, Hpost.
  - rewrite trimStart_app by congruence. rewrite E.
    now apply trimEnd_app_whitespace.
Qed.

Lemma removeCommas_whitespace_id w :
  forallb isWhiteSpace w = true -> removeCommas w = w.
Proof.
  induction w as [|c w IH]; simpl; [reflexivity|].
  intros [Hc Hw]%andb_true_iff.
  destruct (c =? 44)%N eqn:E.
  - apply N.eqb_eq in E. subst c. discriminate Hc.
  - simpl. f_equal. auto.
Qed.

(** X14. White space around the text of a cell does not matter: a cell
    padded with blanks, tabs or line breaks before and after is read as
    the cell without them. *)
Theorem cleanNumber_padding pre s post :
  forallb isWhiteSpace pre = true -> forallb isWhiteSpace post = true ->
  cleanNumber (VString (pre ++ s ++ post)) = cleanNumber (VString s).
Proof.
  intros Hpre Hpost. rewrite !cleanNumber_string.
  assert (E : cleanStr (pre ++ s ++ post) = cleanStr s).
  { unfold cleanStr, removeCommas. rewrite !List.filter_app.
    fold (removeCommas pre) (removeCommas s) (removeCommas post).
    rewrite (removeCommas_whitespace_id pre Hpre),
      (removeCommas_whitespace_id post Hpost).
    now apply trim_padding. }
  now rewrite E.
Qed.

(** The statement above at the cell 1,234 between a blank and a tab. *)
Lemma cleanNumber_padding_witness :
  cleanNumber (VString ([32%N] ++ utf16 "1,234" ++ [9%N]))
  = cleanNumber (VString (utf16 "1,234")).
Proof.
  apply cleanNumber_padding; reflexivity.
Defined.
